(** * Query engine of the RAG question-answering application

    A shallow embedding of [src/query_engine.py] (class [QueryEngine]) and
    the properties of its confidence scoring, threshold filtering, query
    orchestration and history bookkeeping.

    Modelling choices, all read off the Python source:
    - a Python [str] is a sequence of Unicode code points, [list N], so
      that [len] and slicing count characters and not bytes;
    - a Python [float] is an exact rational ([Q]); rounding error and the
      special values (NaN, infinities) are outside the model, equality of
      computed floats is [Qeq];
    - a Python [int] is [Z];
    - a [dict] is a [gmap];
    - a raised exception is the [Raise] outcome of a [result];
    - the mutable attribute [self.query_history] is threaded through an
      explicit state, together with a log of the calls made to the
      external collaborators (language detector, vector store manager,
      llama-index query engine);
    - what [logger.error] writes is not part of the state.

    The later parts embed the document processor
    ([src/document_processor.py]), the query engine construction of the
    vector store manager ([src/vector_store.py]), the settings
    ([src/config.py]) and the side bar and history page of [src/main.py],
    with the calls to PyPDF2, langdetect, llama-index and Streamlit as
    explicit environments and event lists. *)

From Stdlib Require Import ZArith NArith QArith Qround Lqa String Ascii List Lia.
From stdpp Require Import base option list gmap relations.

Local Open Scope Z_scope.

(** ** Python strings *)

Abbreviation pystr := (list N).

(** Decoding of a UTF-8 byte sequence into code points, used only to write
    the string literals of the source. [pending] counts the continuation
    bytes still expected, [acc] holds the bits read so far. *)
Fixpoint utf8_decode (bs : list N) (pending : nat) (acc : N) : pystr :=
  match bs with
  | [] => []
  | b :: rest =>
      if (b <? 128)%N then b :: utf8_decode rest 0 0%N
      else if (b <? 192)%N then
        let acc' := (acc * 64 + N.land b 63)%N in
        match pending with
        | O => utf8_decode rest 0 0%N
        | S O => acc' :: utf8_decode rest 0 0%N
        | S p => utf8_decode rest p acc'
        end
      else if (b <? 224)%N then utf8_decode rest 1 (N.land b 31)
      else if (b <? 240)%N then utf8_decode rest 2 (N.land b 15)
      else utf8_decode rest 3 (N.land b 7)
  end.

Definition lit (s : string) : pystr :=
  utf8_decode (map N_of_ascii (list_ascii_of_string s)) 0 0%N.

(** [len(s)] *)
Definition len {A} (l : list A) : Z := Z.of_nat (length l).

(** Start and stop of a slice are clamped the way CPython does it: a
    negative bound counts from the end, and both ends saturate. *)
Definition slice_bound (i n : Z) : nat :=
  Z.to_nat (if i <? 0 then Z.max 0 (i + n) else Z.min i n).

(** [l[start:]] *)
Definition slice_from {A} (start : Z) (l : list A) : list A :=
  drop (slice_bound start (len l)) l.

(** [l[:stop]] *)
Definition slice_to {A} (stop : Z) (l : list A) : list A :=
  take (slice_bound stop (len l)) l.

(** ** Python floats as rationals *)

Definition Qlt_bool (x y : Q) : bool := negb (Qle_bool y x).

(** [max(a, b)] and [min(a, b)] of the Python builtins: the first argument
    wins unless the second is strictly better. *)
Definition py_max (a b : Q) : Q := if Qlt_bool a b then b else a.
Definition py_min (a b : Q) : Q := if Qlt_bool b a then b else a.

(** Truth value of a float: everything but zero. *)
Definition float_truthy (x : Q) : bool := negb (Qeq_bool x 0).

(** [sum(xs)] *)
Definition py_sum (xs : list Q) : Q := fold_left Qplus xs 0%Q.

(** [round(x, 2)]: nearest multiple of 1/100, ties to the even one. *)
Definition round_half_even (x : Q) : Z :=
  let f := Qfloor x in
  let r := (x - inject_Z f)%Q in
  match (r ?= 1 # 2)%Q with
  | Lt => f
  | Gt => f + 1
  | Eq => if Z.even f then f else f + 1
  end.

Definition py_round2 (x : Q) : Q :=
  (inject_Z (round_half_even (x * 100)) / 100)%Q.

(** ** Exceptions *)

Inductive exception : Type :=
  | TypeError (msg : pystr)
  | CollaboratorError (msg : pystr).

(** [str(e)] *)
Definition str_of_exception (e : exception) : pystr :=
  match e with
  | TypeError msg => msg
  | CollaboratorError msg => msg
  end.

Inductive result (A : Type) : Type :=
  | Ok (a : A)
  | Raise (e : exception).
Arguments Ok {A} a.
Arguments Raise {A} e.

Definition rbind {A B} (m : result A) (k : A -> result B) : result B :=
  match m with
  | Ok a => k a
  | Raise e => Raise e
  end.

Declare Scope result_scope.
Delimit Scope result_scope with res.
Notation "'let?' x ':=' m 'in' k" := (rbind m (fun x => k))
  (at level 10, x name, m at level 100, k at level 200) : result_scope.

(** ** Retrieved nodes and responses (llama-index [NodeWithScore], [Response]) *)

(** The three situations the source distinguishes for [node.score]: the
    attribute does not exist ([hasattr] is false), it holds [None], or it
    holds a float. *)
Inductive score_attr : Type :=
  | NoScoreAttr
  | ScoreNone
  | ScoreVal (v : Q).

Record Node : Type := mkNode {
  score : score_attr;
  metadata : gmap pystr pystr;
  text : pystr
}.

(** [Response.response] is an optional string in llama-index. *)
Record Response : Type := mkResponse {
  response : option pystr;
  source_nodes : list Node
}.

Definition hasattr_score (node : Node) : bool :=
  match score node with
  | NoScoreAttr => false
  | _ => true
  end.

(** [len(x)] on an optional string: [None] has no length. *)
Definition len_opt (x : option pystr) : result Z :=
  match x with
  | Some s => Ok (len s)
  | None => Raise (TypeError (lit "object of type 'NoneType' has no len()"))
  end.

(** ** calculate_confidence_score *)

(** [[node.score for node in nodes if hasattr(node, 'score') and node.score]] *)
Fixpoint truthy_scores (nodes : list Node) : list Q :=
  match nodes with
  | [] => []
  | node :: rest =>
      match score node with
      | ScoreVal v => if float_truthy v then v :: truthy_scores rest
                      else truthy_scores rest
      | _ => truthy_scores rest
      end
  end.

Definition calculate_confidence_score (r : Response) : result Q :=
  match source_nodes r with
  | [] => Ok 0%Q
  | _ =>
      let scores := truthy_scores (source_nodes r) in
      match scores with
      | [] => Ok 0.5%Q
      | _ =>
          let avg_score := (py_sum scores / inject_Z (len scores))%Q in
          let confidence := py_min 100 (py_max 0 (avg_score * 100)) in
          (let? n := len_opt (response r) in
           let confidence :=
             if n <? 50 then (confidence * 0.8)%Q else confidence in
           let confidence :=
             if 3 <=? len (source_nodes r) then (confidence * 1.1)%Q
             else confidence in
           Ok (py_min 100 confidence))%res
      end
  end.

(** ** get_language_prompt *)

Definition prompt_ru : pystr := lit
"Ты помощник для ответов на вопросы на основе предоставленных документов.
            
Инструкции:
1. Отвечай на русском языке
2. Используй только информацию из предоставленных документов
3. Если информации недостаточно, так и скажи
4. Указывай источники своих ответов
5. Будь конкретным и точным".

Definition prompt_en : pystr := lit
"You are an assistant for answering questions based on provided documents.
            
Instructions:
1. Answer in English
2. Use only information from the provided documents
3. If information is insufficient, say so
4. Cite your sources
5. Be specific and accurate".

Definition get_language_prompt (language : pystr) : pystr :=
  let prompts : gmap pystr pystr :=
    <[lit "ru" := prompt_ru]> (<[lit "en" := prompt_en]> ∅) in
  default (prompts !!! lit "en") (prompts !! language).

(** ** format_sources *)

(** One entry of the list built by [format_sources]; the fields are the
    keys of the [source_info] dict. [getattr(node, 'score', 0.0)] yields
    [None] when the attribute exists and holds [None]. *)
Record SourceInfo : Type := mkSourceInfo {
  src_index : Z;
  src_score : option Q;
  src_filename : pystr;
  src_title : pystr;
  src_author : pystr;
  src_text_snippet : pystr
}.

Definition getattr_score (node : Node) (dflt : Q) : option Q :=
  match score node with
  | NoScoreAttr => Some dflt
  | ScoreNone => None
  | ScoreVal v => Some v
  end.

Definition source_info (i : Z) (node : Node) : SourceInfo :=
  {| src_index := i + 1;
     src_score := getattr_score node 0%Q;
     src_filename := default (lit "Unknown") (metadata node !! lit "filename");
     src_title := default (lit "Unknown") (metadata node !! lit "title");
     src_author := default (lit "Unknown") (metadata node !! lit "author");
     src_text_snippet :=
       if 200 <? len (text node)
       then slice_to 200 (text node) ++ lit "..."
       else text node |}.

(** The loop over [enumerate(source_nodes)], [i] being the running index. *)
Fixpoint format_sources_from (i : Z) (source_nodes : list Node) : list SourceInfo :=
  match source_nodes with
  | [] => []
  | node :: rest => source_info i node :: format_sources_from (i + 1) rest
  end.

Definition format_sources (source_nodes : list Node) : list SourceInfo :=
  format_sources_from 0 source_nodes.

(** ** Results of process_query *)

(** The dict returned with ["success": True]. *)
Record SuccessResult : Type := mkSuccess {
  answer : option pystr;
  confidence : Q;
  sources : list SourceInfo;
  language : pystr;
  query : pystr;
  timestamp : pystr
}.

(** The two shapes of the returned dict, told apart by its ["success"] key. *)
Inductive QueryResult : Type :=
  | Success (s : SuccessResult)
  | Failure (error : pystr).

(** [q.get("success", False)], [q.get("language", "unknown")] and
    [q.get("confidence", 0)] *)
Definition get_success (q : QueryResult) : bool :=
  match q with Success _ => true | Failure _ => false end.

Definition get_language (q : QueryResult) : pystr :=
  match q with Success s => language s | Failure _ => lit "unknown" end.

Definition get_confidence (q : QueryResult) : Q :=
  match q with Success s => confidence s | Failure _ => 0%Q end.

(** ** The similarity threshold filter of process_query *)

(** [node.score >= similarity_threshold]; comparing [None] with a float is
    a [TypeError]. The attribute exists whenever this is evaluated. *)
Definition score_ge (node : Node) (similarity_threshold : Q) : result bool :=
  match score node with
  | ScoreVal v => Ok (Qle_bool similarity_threshold v)
  | ScoreNone =>
      Raise (TypeError
        (lit "'>=' not supported between instances of 'NoneType' and 'float'"))
  | NoScoreAttr => Ok false
  end.

(** [[node for node in nodes if hasattr(node, 'score') and
      node.score >= similarity_threshold]]: the nodes are visited in order
    and the first failing comparison aborts the comprehension. *)
Fixpoint filtered_sources (nodes : list Node) (similarity_threshold : Q)
  : result (list Node) :=
  match nodes with
  | [] => Ok []
  | node :: rest =>
      (let? keep := (if hasattr_score node
                     then score_ge node similarity_threshold
                     else Ok false) in
       let? kept := filtered_sources rest similarity_threshold in
       Ok (if keep : bool then node :: kept else kept))%res
  end.

(** ** The engine's state and its external collaborators *)

(** A call that left the engine: to [langdetect.detect], to
    [vector_store_manager.get_query_engine], or to the [query] method of the
    llama-index query engine, each with the arguments it was given. *)
Inductive Call : Type :=
  | CallDetect (text : pystr)
  | CallGetQueryEngine (similarity_top_k : Z) (filters : option (gmap pystr pystr))
  | CallQuery (text : pystr).

(** [self.query_history], and the log of collaborator calls so far. *)
Record State : Type := mkState {
  query_history : list QueryResult;
  calls : list Call
}.

(** [QueryEngine.__init__] *)
Definition init_state : State := {| query_history := []; calls := [] |}.

(** How the outside world answers during one call of [process_query]:
    [detect] may raise; [get_query_engine] may raise, return [None] (no
    index loaded) or return an engine, whose [query] method may in turn
    raise or return a response; [now] is what [datetime.now().isoformat()]
    reads. *)
Record Env : Type := mkEnv {
  detect : pystr -> result pystr;
  get_query_engine :
    Z -> option (gmap pystr pystr) -> result (option (pystr -> result Response));
  now : pystr
}.

(** Computations that read and write the state and may raise. *)
Definition M (A : Type) : Type := State -> result A * State.

Definition ret {A} (a : A) : M A := fun st => (Ok a, st).

Definition raise {A} (e : exception) : M A := fun st => (Raise e, st).

Definition bind {A B} (m : M A) (k : A -> M B) : M B :=
  fun st =>
    match m st with
    | (Ok a, st') => k a st'
    | (Raise e, st') => (Raise e, st')
    end.

(** [try: m  except Exception as e: handler(e)] *)
Definition try_except {A} (m : M A) (handler : exception -> M A) : M A :=
  fun st =>
    match m st with
    | (Ok a, st') => (Ok a, st')
    | (Raise e, st') => handler e st'
    end.

Definition lift {A} (r : result A) : M A := fun st => (r, st).

Definition log_call (c : Call) : M unit :=
  fun st => (Ok tt, {| query_history := query_history st;
                       calls := calls st ++ [c] |}).

(** [self.query_history.append(result)] *)
Definition append_history (r : QueryResult) : M unit :=
  fun st => (Ok tt, {| query_history := query_history st ++ [r];
                       calls := calls st |}).

Declare Scope m_scope.
Delimit Scope m_scope with M.
Notation "x <- m ;; k" := (bind m (fun x => k))
  (at level 100, m at next level, right associativity) : m_scope.
Notation "m ;;; k" := (bind m (fun _ => k))
  (at level 100, right associativity) : m_scope.

(** ** detect_query_language *)

Definition detect_query_language (env : Env) (query : pystr) : M pystr :=
  try_except
    (log_call (CallDetect query) ;;; lift (detect env query))%M
    (fun _ => ret (lit "en")).

(** ** process_query *)

Definition no_documents_ru : pystr :=
  lit "Не найдено релевантных документов для ответа на ваш вопрос.".

Definition no_documents_en : pystr :=
  lit "No relevant documents found to answer your question.".

Definition engine_not_available : pystr :=
  lit "Query engine not available. Please upload documents first.".

Definition process_query (env : Env) (query : pystr) (similarity_top_k : Z)
    (similarity_threshold : Q) (metadata_filters : option (gmap pystr pystr))
  : M QueryResult :=
  (query_language <- detect_query_language env query ;;
   query_engine <-
     (log_call (CallGetQueryEngine similarity_top_k metadata_filters) ;;;
      lift (get_query_engine env similarity_top_k metadata_filters)) ;;
   match query_engine with
   | None => ret (Failure engine_not_available)
   | Some engine_query =>
       try_except
         (response0 <- (log_call (CallQuery query) ;;; lift (engine_query query)) ;;
          filtered <-
            lift (filtered_sources (source_nodes response0) similarity_threshold) ;;
          match filtered with
          | [] =>
              ret (Success
                {| answer := Some (if bool_decide (query_language = lit "ru")
                                   then no_documents_ru else no_documents_en);
                   confidence := 0%Q;
                   sources := [];
                   language := query_language;
                   query := query;
                   timestamp := now env |})
          | _ =>
              let response1 :=
                {| response := response response0; source_nodes := filtered |} in
              confidence <- lift (calculate_confidence_score response1) ;;
              let sources := format_sources filtered in
              let result :=
                Success {| answer := response response1;
                           confidence := confidence;
                           sources := sources;
                           language := query_language;
                           query := query;
                           timestamp := now env |} in
              append_history result ;;;
              ret result
          end)
         (fun e =>
            ret (Failure (lit "Error processing query: " ++ str_of_exception e)))
   end)%M.

(** ** get_query_history, clear_history, get_statistics *)

Definition get_query_history (limit : Z) (st : State) : list QueryResult :=
  match query_history st with
  | [] => []
  | _ => slice_from (- limit) (query_history st)
  end.

Definition clear_history : M unit :=
  fun st => (Ok tt, {| query_history := []; calls := calls st |}).

(** The dict returned by [get_statistics]. The branch for an empty history
    builds it without the ["successful_queries"] key. *)
Record Stats : Type := mkStats {
  total_queries : Z;
  successful_queries : option Z;
  avg_confidence : Q;
  language_distribution : gmap pystr Z;
  recent_queries : Z
}.

(** [lang_dist[lang] = lang_dist.get(lang, 0) + 1] for each [lang] *)
Definition count_languages (languages : list pystr) : gmap pystr Z :=
  fold_left (fun lang_dist lang =>
               <[lang := default 0 (lang_dist !! lang) + 1]> lang_dist)
            languages ∅.

Definition get_statistics (st : State) : Stats :=
  match query_history st with
  | [] =>
      {| total_queries := 0;
         successful_queries := None;
         avg_confidence := 0%Q;
         language_distribution := ∅;
         recent_queries := 0 |}
  | _ =>
      let successful := List.filter get_success (query_history st) in
      let languages := map get_language successful in
      let lang_dist := count_languages languages in
      let confidences := map get_confidence successful in
      let avg :=
        match confidences with
        | [] => 0%Q
        | _ => (py_sum confidences / inject_Z (len confidences))%Q
        end in
      {| total_queries := len (query_history st);
         successful_queries := Some (len successful);
         avg_confidence := py_round2 avg;
         language_distribution := lang_dist;
         recent_queries :=
           len (List.filter get_success (slice_from (-24) (query_history st))) |}
  end.

(** ** Runs of the engine *)

(** The state changes the public methods can cause. *)
Inductive step : State -> State -> Prop :=
  | step_process_query env query k threshold filters st :
      step st (process_query env query k threshold filters st).2
  | step_clear_history st :
      step st (clear_history st).2.

Definition reachable (st : State) : Prop := rtc step init_state st.

(** The arguments of one [process_query] call together with the behaviour
    of the collaborators during it. *)
Record ProcessCall : Type := mkProcessCall {
  pc_env : Env;
  pc_query : pystr;
  pc_top_k : Z;
  pc_threshold : Q;
  pc_filters : option (gmap pystr pystr)
}.

Definition run_call (c : ProcessCall) : M QueryResult :=
  process_query (pc_env c) (pc_query c) (pc_top_k c) (pc_threshold c) (pc_filters c).

(** Successive calls, with what each one returned and the final state. *)
Fixpoint run_calls (cs : list ProcessCall) (st : State)
  : list (result QueryResult) * State :=
  match cs with
  | [] => ([], st)
  | c :: rest =>
      let '(r, st') := run_call c st in
      let '(rs, st'') := run_calls rest st' in
      (r :: rs, st'')
  end.

(** * Vocabulary of the statements *)

(** The scorer as the specification words it (its steps 1 to 6): the mean
    runs over every score that is defined, an unscored sequence takes 0.5
    for the mean, and the result of the scaling goes through the penalty,
    the boost and the last clamp in every case. *)
Module Spec.

Definition clamp (x lo hi : Q) : Q :=
  if Qlt_bool x lo then lo else if Qlt_bool hi x then hi else x.

Fixpoint defined_scores (matches : list Node) : list Q :=
  match matches with
  | [] => []
  | m :: rest =>
      match score m with
      | ScoreVal v => v :: defined_scores rest
      | _ => defined_scores rest
      end
  end.

Definition mean_score (matches : list Node) : Q :=
  match defined_scores matches with
  | [] => 0.5%Q
  | ds => (py_sum ds / inject_Z (len ds))%Q
  end.

Definition score (answer_text : pystr) (filtered_matches : list Node) : Q :=
  match filtered_matches with
  | [] => 0%Q
  | _ =>
      let c := clamp (mean_score filtered_matches * 100) 0 100 in
      let c := if len answer_text <? 50 then (c * 0.8)%Q else c in
      let c := if 3 <=? len filtered_matches then (c * 1.1)%Q else c in
      clamp c 0 100
  end.

End Spec.

(** The test a node passes when its score holds a float. *)
Definition passes (similarity_threshold : Q) (node : Node) : bool :=
  match score node with
  | ScoreVal v => Qle_bool similarity_threshold v
  | _ => false
  end.

Definition null_score (node : Node) : Prop := score node = ScoreNone.

Definition null_comparison : exception :=
  TypeError (lit "'>=' not supported between instances of 'NoneType' and 'float'").

(** What [detect_query_language] returns. *)
Definition detected_language (env : Env) (query : pystr) : pystr :=
  match detect env query with
  | Ok l => l
  | Raise _ => lit "en"
  end.

(** The state after more collaborator calls, and after one more entry. *)
Definition logged (st : State) (cs : list Call) : State :=
  {| query_history := query_history st; calls := calls st ++ cs |}.

Definition recorded (st : State) (r : QueryResult) : State :=
  {| query_history := query_history st ++ [r]; calls := calls st |}.

Definition error_result (e : exception) : QueryResult :=
  Failure (lit "Error processing query: " ++ str_of_exception e).

Definition no_results (env : Env) (query : pystr) : QueryResult :=
  Success {| answer := Some (if bool_decide (detected_language env query = lit "ru")
                             then no_documents_ru else no_documents_en);
             confidence := 0%Q;
             sources := [];
             language := detected_language env query;
             query := query;
             timestamp := now env |}.

Definition answered (env : Env) (query : pystr) (r0 : Response)
    (kept : list Node) (c : Q) : QueryResult :=
  Success {| answer := response r0;
             confidence := c;
             sources := format_sources kept;
             language := detected_language env query;
             query := query;
             timestamp := now env |}.

(** The paths through [process_query], one per line of the case analysis:
    the construction of the engine raises (outside the [try]), no engine,
    the query raises, the filter raises, nothing survives the filter, the
    scorer raises, and the full answer. *)
Definition process_query_outcome (env : Env) (query : pystr) (k : Z) (t : Q)
    (f : option (gmap pystr pystr)) (st : State) : result QueryResult * State :=
  let st1 := logged st [CallDetect query; CallGetQueryEngine k f] in
  let st2 := logged st [CallDetect query; CallGetQueryEngine k f; CallQuery query] in
  match get_query_engine env k f with
  | Raise e => (Raise e, st1)
  | Ok None => (Ok (Failure engine_not_available), st1)
  | Ok (Some engine_query) =>
      match engine_query query with
      | Raise e => (Ok (error_result e), st2)
      | Ok r0 =>
          match filtered_sources (source_nodes r0) t with
          | Raise e => (Ok (error_result e), st2)
          | Ok [] => (Ok (no_results env query), st2)
          | Ok kept =>
              match calculate_confidence_score
                      {| response := response r0; source_nodes := kept |} with
              | Raise e => (Ok (error_result e), st2)
              | Ok c =>
                  (Ok (answered env query r0 kept c),
                   recorded st2 (answered env query r0 kept c))
              end
          end
      end
  end.

(** The strings a collaborator receives with a call. *)
Definition call_strings (c : Call) : list pystr :=
  match c with
  | CallDetect text => [text]
  | CallGetQueryEngine _ None => []
  | CallGetQueryEngine _ (Some filters) =>
      flat_map (fun kv => [kv.1; kv.2]) (map_to_list filters)
  | CallQuery text => [text]
  end.

(** Whether a call returned a success, a failure, and whether what it
    returned is a success that kept at least one source. *)
Definition returned_success (r : result QueryResult) : bool :=
  match r with
  | Ok q => get_success q
  | Raise _ => false
  end.

Definition returned_failure (r : result QueryResult) : bool :=
  match r with
  | Ok q => negb (get_success q)
  | Raise _ => false
  end.

Definition returned_sources (r : result QueryResult) : bool :=
  match r with
  | Ok (Success s) => match sources s with [] => false | _ => true end
  | _ => false
  end.

Definition all_success (h : list QueryResult) : Prop :=
  Forall (fun q => get_success q = true) h.

(** * Concrete inputs *)

Definition node_with_score (s : score_attr) : Node :=
  {| score := s; metadata := ∅; text := lit "chunk" |}.

(** An answer of sixty characters, long enough to escape the penalty. *)
Definition sixty_chars : pystr := repeat 97%N 60.

(** The engine is ready and answers every query with the response [r]. *)
Definition env_answering (lang : pystr) (r : Response) : Env :=
  {| detect := fun _ => Ok lang;
     get_query_engine := fun _ _ => Ok (Some (fun _ => Ok r));
     now := lit "2024-05-01T12:00:00" |}.

(** The end-to-end example of the specification: a query in English for
    which the retrieval returns no match at all. *)
Definition refund_query : pystr := lit "What is the policy on refunds?".

Definition one_good_match : Response :=
  {| response := Some sixty_chars;
     source_nodes := [node_with_score (ScoreVal 0.9)] |}.

Definition response_with_null_score : Response :=
  {| response := Some sixty_chars;
     source_nodes := [node_with_score (ScoreVal 0.9); node_with_score ScoreNone;
                      node_with_score (ScoreVal 0.8)] |}.

Definition env_no_match : Env :=
  env_answering (lit "en") {| response := Some sixty_chars; source_nodes := [] |}.

(** The manager fails while it builds the metadata filters. *)
Definition env_broken_manager : Env :=
  {| detect := fun _ => Ok (lit "en");
     get_query_engine :=
       fun _ _ => Raise (CollaboratorError (lit "validation error for MetadataFilter"));
     now := lit "2024-05-01T12:00:00" |}.

Definition privet : pystr := lit "Привет, что нового?".

Definition state_after_one_answer : State :=
  (process_query (env_answering (lit "en") one_good_match) refund_query
     5 0.7%Q None init_state).2.

Definition call_with (r : Response) : ProcessCall :=
  {| pc_env := env_answering (lit "en") r;
     pc_query := refund_query;
     pc_top_k := 5;
     pc_threshold := 0.7%Q;
     pc_filters := None |}.

(** A call during which the engine's [query] raises. *)
Definition call_failing : ProcessCall :=
  {| pc_env := {| detect := fun _ => Ok (lit "en");
                  get_query_engine :=
                    fun _ _ => Ok (Some (fun _ =>
                      Raise (CollaboratorError (lit "connection reset"))));
                  now := lit "2024-05-01T12:00:00" |};
     pc_query := refund_query;
     pc_top_k := 5;
     pc_threshold := 0.7%Q;
     pc_filters := None |}.

Definition call_answered : ProcessCall := call_with one_good_match.

Definition call_no_match : ProcessCall :=
  call_with {| response := Some sixty_chars; source_nodes := [] |}.

(** The detector gives up on every text. *)
Definition env_detector_failing : Env :=
  {| detect := fun _ => Raise (CollaboratorError (lit "No features in text."));
     get_query_engine := fun _ _ => Ok (Some (fun _ => Ok one_good_match));
     now := lit "2024-05-01T12:00:00" |}.

(** * Vocabulary of the further statements *)

(** How many of the given language codes are [l]. *)
Definition occurrences (l : pystr) (languages : list pystr) : Z :=
  len (List.filter (fun l' => bool_decide (l' = l)) languages).

(** The successful entries of a history. *)
Definition successful_entries (st : State) : list QueryResult :=
  List.filter get_success (query_history st).


(** * document_processor.py: class DocumentProcessor *)

(** ** What the module touches outside itself *)

(** Values stored in a metadata dict: strings, [None] and integers. *)
Inductive MetaValue : Type :=
  | MVStr (s : pystr)
  | MVNone
  | MVInt (n : Z).

(** A file handed over by the upload widget: [name], [size] in bytes, and
    what [read()] does. *)
Record UploadedFile : Type := mkUploadedFile {
  file_name : pystr;
  file_size : Z;
  file_read : result (list Byte.byte)
}.

(** A [PyPDF2.PdfReader]: the [metadata] attribute ([None] or the document
    information dict) and the pages, each with the outcome of its
    [extract_text()]; reaching either attribute may raise. *)
Record PdfReader : Type := mkPdfReader {
  reader_metadata : result (option (gmap pystr MetaValue));
  reader_pages : result (list (result pystr))
}.

(** The libraries the processor calls: [PyPDF2.PdfReader(BytesIO(content))]
    and [langdetect.detect]. *)
Record DocEnv : Type := mkDocEnv {
  read_pdf : list Byte.byte -> result PdfReader;
  detect_text : pystr -> result pystr
}.

(** The arguments of the messages the processor shows, in place of the
    formatted text: too many files (count, limit), a file over the size
    limit (name, size in MB, limit), no text in a file, and an exception
    while a file was processed. *)
Inductive UiMessage : Type :=
  | TooManyFiles (count max_count : Z)
  | FileTooLarge (name : pystr) (size_mb : Q) (max_mb : Z)
  | NoTextExtracted (name : pystr)
  | ProcessingFailed (name : pystr) (e : exception).

(** Calls to Streamlit: [st.error], [st.warning], [st.progress(0)],
    [progress_bar.progress(v)] and [progress_bar.empty()]. *)
Inductive UiEvent : Type :=
  | StError (m : UiMessage)
  | StWarning (m : UiMessage)
  | ProgressCreate
  | ProgressSet (v : Q)
  | ProgressEmpty.

(** [DocumentProcessor.__init__]; the sentence splitter is not part of
    what is modelled. *)
Record DocumentProcessor : Type := mkDocumentProcessor {
  max_file_size_mb : Z;
  max_files_count : Z
}.

(** A llama-index [Document]. *)
Record Document : Type := mkDocument {
  doc_text : pystr;
  doc_metadata : gmap pystr MetaValue
}.

(** ** str.strip *)

(** The code points Python counts as whitespace. *)
Definition py_isspace (c : N) : bool :=
  ((9 <=? c) && (c <=? 13) || (28 <=? c) && (c <=? 32)
   || (c =? 133) || (c =? 160) || (c =? 5760)
   || (8192 <=? c) && (c <=? 8202) || (c =? 8232) || (c =? 8233)
   || (c =? 8239) || (c =? 8287) || (c =? 12288))%N.

Fixpoint lstrip (s : pystr) : pystr :=
  match s with
  | [] => []
  | c :: rest => if py_isspace c then lstrip rest else s
  end.

Definition rstrip (s : pystr) : pystr := rev (lstrip (rev s)).

Definition strip (s : pystr) : pystr := rstrip (lstrip s).

(** ** validate_files *)

(** The double nearest to an int, ties to the even significand: an int of
    at most 53 significant bits is a double itself, a longer one loses its
    low bits. The exponent range of doubles is not modelled. *)
Definition nearest_double (a : Z) : Z :=
  let bits := Z.log2 (Z.abs a) + 1 in
  if bits <=? 53 then a
  else
    let shift := bits - 53 in
    let q := Z.shiftr (Z.abs a) shift in
    let r := Z.land (Z.abs a) (Z.ones shift) in
    let half := Z.shiftl 1 (shift - 1) in
    let q' := if (half <? r) || ((r =? half) && Z.odd q) then q + 1 else q in
    Z.sgn a * Z.shiftl q' shift.

(** [a / (1024 * 1024)] on ints is a float: the quotient rounded to the
    nearest double. The divisor being a power of two, that is the nearest
    double of [a] with its exponent lowered by 20. *)
Definition true_div_mib (a : Z) : Q :=
  (inject_Z (nearest_double a) / inject_Z (1024 * 1024))%Q.

(** The loop over the files: the first file above the size limit stops it. *)
Fixpoint check_file_sizes (dp : DocumentProcessor) (files : list UploadedFile)
  : bool * list UiEvent :=
  match files with
  | [] => (true, [])
  | file :: rest =>
      let file_size_mb := true_div_mib (file_size file) in
      if Qlt_bool (inject_Z (max_file_size_mb dp)) file_size_mb
      then (false, [StError (FileTooLarge (file_name file) file_size_mb
                               (max_file_size_mb dp))])
      else check_file_sizes dp rest
  end.

Definition validate_files (dp : DocumentProcessor) (uploaded_files : list UploadedFile)
  : bool * list UiEvent :=
  if max_files_count dp <? len uploaded_files
  then (false, [StError (TooManyFiles (len uploaded_files) (max_files_count dp))])
  else check_file_sizes dp uploaded_files.

(** ** extract_pdf_metadata *)

Definition default_metadata (filename : pystr) : gmap pystr MetaValue :=
  <[lit "title" := MVStr filename]>
    (<[lit "author" := MVStr (lit "Unknown")]>
       (<[lit "creation_date" := MVNone]>
          (<[lit "filename" := MVStr filename]> ∅))).

(** [metadata.update({...})] with the three entries read from the PDF. *)
Definition update_from_pdf (info : gmap pystr MetaValue) (filename : pystr)
    (metadata : gmap pystr MetaValue) : gmap pystr MetaValue :=
  <[lit "creation_date" := default MVNone (info !! lit "/CreationDate")]>
    (<[lit "author" := default (MVStr (lit "Unknown")) (info !! lit "/Author")]>
       (<[lit "title" := default (MVStr filename) (info !! lit "/Title")]> metadata)).

(** The body of the [try]: the reader, then its [metadata]. An exception
    is logged and the defaults are returned. *)
Definition extract_pdf_metadata (env : DocEnv) (pdf_content : list Byte.byte)
    (filename : pystr) : gmap pystr MetaValue :=
  let metadata := default_metadata filename in
  match (let? pdf_reader := read_pdf env pdf_content in
         reader_metadata pdf_reader)%res with
  | Ok (Some info) =>
      if decide (info = ∅) then metadata
      else update_from_pdf info filename metadata
  | Ok None => metadata
  | Raise _ => metadata
  end.

(** ** extract_text_from_pdf *)

(** What the source appends after the text of each page: the string
    literal written ["\\n"], a backslash followed by the letter n. *)
Definition page_separator : pystr := [92%N; 110%N].

(** The loop [text += page.extract_text() + "\\n"]. *)
Fixpoint append_pages (text : pystr) (pages : list (result pystr)) : result pystr :=
  match pages with
  | [] => Ok text
  | page :: rest =>
      (let? page_text := page in
       append_pages (text ++ page_text ++ page_separator) rest)%res
  end.

(** The handler logs and re-raises, so the exception is passed on. *)
Definition extract_text_from_pdf (env : DocEnv) (pdf_content : list Byte.byte)
  : result pystr :=
  (let? pdf_reader := read_pdf env pdf_content in
   let? pages := reader_pages pdf_reader in
   let? text := append_pages [] pages in
   Ok (strip text))%res.

(** ** detect_language *)

Definition detect_language (env : DocEnv) (text : pystr) : pystr :=
  match detect_text env (slice_to 1000 text) with
  | Ok l => l
  | Raise _ => lit "en"
  end.

(** ** process_uploaded_files *)

(** One turn of the loop for the file at index [i] of [n]: the document it
    adds, if any, and what it shows. *)
Definition process_file (env : DocEnv) (n i : Z) (uploaded_file : UploadedFile)
  : option Document * list UiEvent :=
  match (let? pdf_content := file_read uploaded_file in
         let? text := extract_text_from_pdf env pdf_content in
         Ok (pdf_content, text))%res with
  | Raise e => (None, [StError (ProcessingFailed (file_name uploaded_file) e)])
  | Ok (pdf_content, text) =>
      match strip text with
      | [] => (None, [StWarning (NoTextExtracted (file_name uploaded_file))])
      | _ =>
          let metadata :=
            extract_pdf_metadata env pdf_content (file_name uploaded_file) in
          let metadata :=
            <[lit "language" := MVStr (detect_language env text)]> metadata in
          let metadata :=
            <[lit "file_size" := MVInt (file_size uploaded_file)]> metadata in
          (Some {| doc_text := text; doc_metadata := metadata |},
           [ProgressSet (inject_Z (i + 1) / inject_Z n)%Q])
      end
  end.

Fixpoint process_files_from (env : DocEnv) (n i : Z) (files : list UploadedFile)
  : list Document * list UiEvent :=
  match files with
  | [] => ([], [])
  | file :: rest =>
      let '(doc, shown) := process_file env n i file in
      let '(docs, shown') := process_files_from env n (i + 1) rest in
      (match doc with Some d => d :: docs | None => docs end, shown ++ shown')
  end.

Definition process_uploaded_files (dp : DocumentProcessor) (env : DocEnv)
    (uploaded_files : list UploadedFile) : list Document * list UiEvent :=
  let '(valid, shown) := validate_files dp uploaded_files in
  if valid then
    let '(documents, shown') :=
      process_files_from env (len uploaded_files) 0 uploaded_files in
    (documents, shown ++ [ProgressCreate] ++ shown' ++ [ProgressEmpty])
  else ([], shown).

(** ** chunk_documents *)

(** [node_parser.get_nodes_from_documents([document])] is the splitter's;
    the method concatenates what it returns for each document and passes
    on the first exception. *)
Fixpoint chunk_documents {N0 : Type} (get_nodes : Document -> result (list N0))
    (documents : list Document) : result (list N0) :=
  match documents with
  | [] => Ok []
  | document :: rest =>
      (let? doc_nodes := get_nodes document in
       let? nodes := chunk_documents get_nodes rest in
       Ok (doc_nodes ++ nodes))%res
  end.

(** The size limit of a processor in bytes. *)
Definition max_file_size_bytes (dp : DocumentProcessor) : Z :=
  max_file_size_mb dp * 1048576.

(** The reader finds [pages] in every content, and no document
    information. *)
Definition env_with_pages (pages : list (result pystr)) : DocEnv :=
  {| read_pdf := fun _ => Ok {| reader_metadata := Ok None;
                                reader_pages := Ok pages |};
     detect_text := fun _ => Ok (lit "en") |}.

Definition default_processor : DocumentProcessor :=
  {| max_file_size_mb := 50; max_files_count := 100 |}.

Definition small_file (name : string) : UploadedFile :=
  {| file_name := lit name; file_size := 2048; file_read := Ok [] |}.


(** * vector_store.py: VectorStoreManager.get_query_engine *)

Module VectorStore.

(** llama-index's filter vocabulary, as far as the manager uses it. *)
Inductive FilterOperator : Type :=
  | EQ | GT | LT | NE | GTE | LTE | IN | NIN.

Inductive FilterCondition : Type :=
  | AND | OR.

Record MetadataFilter : Type := mkMetadataFilter {
  key : pystr;
  value : pystr;
  operator : FilterOperator
}.

Record MetadataFilters : Type := mkMetadataFilters {
  filters : list MetadataFilter;
  condition : FilterCondition
}.

(** [self.index]: a llama-index [VectorStoreIndex], seen through its
    [as_query_engine] method, which builds an engine or raises. *)
Record VectorStoreIndex : Type := mkVectorStoreIndex {
  as_query_engine :
    Z -> option MetadataFilters -> result (pystr -> result Response)
}.

(** The conversion of the [filters] dict: nothing for [None] and for an
    empty dict, otherwise one equality filter per item, joined by AND. The
    items come in the order of [map_to_list], where Python follows the
    insertion order of the dict. *)
Definition metadata_filters_of (filters : option (gmap pystr pystr))
  : option MetadataFilters :=
  match filters with
  | Some d =>
      if decide (d = ∅) then None
      else Some {| filters := map (fun kv => {| key := kv.1; value := kv.2;
                                                operator := EQ |})
                                  (map_to_list d);
                   condition := AND |}
  | None => None
  end.

Definition get_query_engine (index : option VectorStoreIndex)
    (similarity_top_k : Z) (filters : option (gmap pystr pystr))
  : result (option (pystr -> result Response)) :=
  match index with
  | None => Ok None
  | Some idx =>
      (let? engine := as_query_engine idx similarity_top_k
                        (metadata_filters_of filters) in
       Ok (Some engine))%res
  end.

End VectorStore.

(** * main.py *)

(** The [metadata_filters] entry of [search_params] that [render_sidebar]
    builds from the author field. *)
Definition sidebar_metadata_filters (author_filter : pystr) : gmap pystr pystr :=
  match author_filter with
  | [] => ∅
  | _ => <[lit "author" := author_filter]> ∅
  end.

(** What [render_query_history] writes for one entry of the history; an
    entry without the keys of a success makes the subscripts fail with a
    [KeyError], rendered here as [None]. *)
Record HistoryItemView : Type := mkHistoryItemView {
  view_title : pystr;
  view_query : pystr;
  view_answer : option pystr;
  view_confidence : Q;
  view_language : pystr;
  view_source_count : Z
}.

Definition render_history_item (item : QueryResult) : option HistoryItemView :=
  match item with
  | Success s =>
      Some {| view_title := lit "❓ " ++ slice_to 50 (query s) ++ lit "... ("
                            ++ slice_to 19 (timestamp s) ++ lit ")";
              view_query := query s;
              view_answer := answer s;
              view_confidence := confidence s;
              view_language := language s;
              view_source_count := len (sources s) |}
  | Failure _ => None
  end.

(** [render_query_history]: the entries [get_query_history()] returns with
    its default limit of 10, of these the last five, newest first. *)
Definition render_query_history (st : State) : option (list HistoryItemView) :=
  let history := get_query_history 10 st in
  match history with
  | [] => Some []
  | _ => mapM render_history_item (rev (slice_from (-5) history))
  end.

(** An environment whose engine comes from a vector store manager. *)
Definition env_of_manager (detect : pystr -> result pystr)
    (index : option VectorStore.VectorStoreIndex) (now : pystr) : Env :=
  {| detect := detect;
     get_query_engine := VectorStore.get_query_engine index;
     now := now |}.

(** * config.py: Settings *)

Module Config.

(** The [ValueError]s of the constructor: from [int()] and [float()] on
    the text of an environment variable, and the two raised by hand with
    their message. *)
Inductive ValueError : Type :=
  | InvalidInt (text : pystr)
  | InvalidFloat (text : pystr)
  | MustBeSet (msg : pystr).

Record Settings : Type := mkSettings {
  openai_api_key : pystr;
  openai_model : pystr;
  embedding_model : pystr;
  pinecone_api_key : pystr;
  pinecone_environment : pystr;
  pinecone_index_name : pystr;
  max_file_size_mb : Z;
  max_files_count : Z;
  chunk_size : Z;
  chunk_overlap : Z;
  similarity_top_k : Z;
  similarity_threshold : Q;
  database_url : pystr
}.

(** The keyword arguments of the constructor, each present or not. *)
Record Kwargs : Type := mkKwargs {
  kw_openai_api_key : option pystr;
  kw_openai_model : option pystr;
  kw_embedding_model : option pystr;
  kw_pinecone_api_key : option pystr;
  kw_pinecone_environment : option pystr;
  kw_pinecone_index_name : option pystr;
  kw_max_file_size_mb : option Z;
  kw_max_files_count : option Z;
  kw_chunk_size : option Z;
  kw_chunk_overlap : option Z;
  kw_similarity_top_k : option Z;
  kw_similarity_threshold : option Q;
  kw_database_url : option pystr
}.

Definition no_kwargs : Kwargs :=
  mkKwargs None None None None None None None None None None None None None.

Section Environment.

(** The process environment, and the builtins [int] and [float] applied to
    a string ([None] when they raise [ValueError]). *)
Variable getenv : pystr -> option pystr.
Variable parse_int : pystr -> option Z.
Variable parse_float : pystr -> option Q.

(** [os.getenv(name, dflt)] *)
Definition getenv_or (name dflt : string) : pystr :=
  default (lit dflt) (getenv (lit name)).

Definition int_of_env (name dflt : string) : ValueError + Z :=
  match parse_int (getenv_or name dflt) with
  | Some n => inr n
  | None => inl (InvalidInt (getenv_or name dflt))
  end.

Definition float_of_env (name dflt : string) : ValueError + Q :=
  match parse_float (getenv_or name dflt) with
  | Some x => inr x
  | None => inl (InvalidFloat (getenv_or name dflt))
  end.

Definition ebind {A B} (m : ValueError + A) (k : A -> ValueError + B)
  : ValueError + B :=
  match m with
  | inr a => k a
  | inl e => inl e
  end.

(** The key is missing when it is empty or still the placeholder of the
    sample file. *)
Definition key_missing (key : pystr) (placeholder : string) : bool :=
  match key with
  | [] => true
  | _ => bool_decide (key = lit placeholder)
  end.

(** [Settings.__init__]: the dict of the environment values (the numbers
    are converted while it is built), [env_vars.update(kwargs)], the
    construction of the model, and the two checks of the keys. *)
Definition new_Settings (kwargs : Kwargs) : ValueError + Settings :=
  ebind (int_of_env "MAX_FILE_SIZE_MB" "50") (fun env_max_file_size_mb =>
  ebind (int_of_env "MAX_FILES_COUNT" "100") (fun env_max_files_count =>
  ebind (int_of_env "CHUNK_SIZE" "1024") (fun env_chunk_size =>
  ebind (int_of_env "CHUNK_OVERLAP" "20") (fun env_chunk_overlap =>
  ebind (int_of_env "SIMILARITY_TOP_K" "5") (fun env_similarity_top_k =>
  ebind (float_of_env "SIMILARITY_THRESHOLD" "0.7") (fun env_similarity_threshold =>
  let self :=
    {| openai_api_key :=
         default (getenv_or "OPENAI_API_KEY" "") (kw_openai_api_key kwargs);
       openai_model :=
         default (getenv_or "OPENAI_MODEL" "gpt-4") (kw_openai_model kwargs);
       embedding_model :=
         default (getenv_or "EMBEDDING_MODEL" "text-embedding-ada-002")
                 (kw_embedding_model kwargs);
       pinecone_api_key :=
         default (getenv_or "PINECONE_API_KEY" "") (kw_pinecone_api_key kwargs);
       pinecone_environment :=
         default (getenv_or "PINECONE_ENVIRONMENT" "us-east1-gcp")
                 (kw_pinecone_environment kwargs);
       pinecone_index_name :=
         default (getenv_or "PINECONE_INDEX_NAME" "qa-documents")
                 (kw_pinecone_index_name kwargs);
       max_file_size_mb := default env_max_file_size_mb (kw_max_file_size_mb kwargs);
       max_files_count := default env_max_files_count (kw_max_files_count kwargs);
       chunk_size := default env_chunk_size (kw_chunk_size kwargs);
       chunk_overlap := default env_chunk_overlap (kw_chunk_overlap kwargs);
       similarity_top_k := default env_similarity_top_k (kw_similarity_top_k kwargs);
       similarity_threshold :=
         default env_similarity_threshold (kw_similarity_threshold kwargs);
       database_url :=
         default (getenv_or "DATABASE_URL" "sqlite:///qa_system.db")
                 (kw_database_url kwargs) |} in
  if key_missing (openai_api_key self) "your_openai_api_key_here"
  then inl (MustBeSet (lit "OPENAI_API_KEY must be set"))
  else if key_missing (pinecone_api_key self) "your_pinecone_api_key_here"
  then inl (MustBeSet (lit "PINECONE_API_KEY must be set"))
  else inr self)))))).

End Environment.

End Config.

(** An environment holding the two keys and nothing else, with a reading
    of decimal literals that knows the defaults of the module. *)
Definition env_with_keys (name : pystr) : option pystr :=
  if bool_decide (name = lit "OPENAI_API_KEY") then Some (lit "sk-test")
  else if bool_decide (name = lit "PINECONE_API_KEY") then Some (lit "pc-test")
  else None.

Definition int_of_defaults (text : pystr) : option Z :=
  if bool_decide (text = lit "50") then Some 50
  else if bool_decide (text = lit "100") then Some 100
  else if bool_decide (text = lit "1024") then Some 1024
  else if bool_decide (text = lit "20") then Some 20
  else if bool_decide (text = lit "5") then Some 5
  else None.

Definition float_of_defaults (text : pystr) : option Q :=
  if bool_decide (text = lit "0.7") then Some 0.7%Q else None.

(** * Properties *)

(** ** Arithmetic of the float builtins *)

Section FloatBuiltins.

Local Open Scope Q_scope.

Lemma Qlt_bool_iff (x y : Q) : Qlt_bool x y = true <-> x < y.
Proof.
  unfold Qlt_bool. rewrite negb_true_iff.
  destruct (Qle_bool y x) eqn:E.
  - apply Qle_bool_iff in E. split; [discriminate | intros H].
    exfalso. exact (Qlt_not_le _ _ H E).
  - split; [intros _ | reflexivity].
    apply Qnot_le_lt. intros H. apply Qle_bool_iff in H. congruence.
Qed.

Lemma py_min_le_l (a b : Q) : py_min a b <= a.
Proof.
  unfold py_min. destruct (Qlt_bool b a) eqn:E.
  - apply Qlt_bool_iff in E. apply Qlt_le_weak, E.
  - apply Qle_refl.
Qed.

Lemma py_min_glb (c a b : Q) : c <= a -> c <= b -> c <= py_min a b.
Proof. unfold py_min. destruct (Qlt_bool b a); auto. Qed.

Lemma py_max_ge_l (a b : Q) : a <= py_max a b.
Proof.
  unfold py_max. destruct (Qlt_bool a b) eqn:E.
  - apply Qlt_bool_iff in E. apply Qlt_le_weak, E.
  - apply Qle_refl.
Qed.

(** [min(100, max(0, x))] is a clamp to the interval from 0 to 100. *)
Lemma clamp_bounds (x : Q) : 0 <= py_min 100 (py_max 0 x) <= 100.
Proof.
  split.
  - apply py_min_glb; [lra | apply py_max_ge_l].
  - apply py_min_le_l.
Qed.

Lemma scale_nonneg (b : bool) (c k : Q) :
  0 <= c -> 0 <= k -> 0 <= (if b then c * k else c).
Proof. intros Hc Hk. destruct b; [nra | exact Hc]. Qed.

End FloatBuiltins.

(** ** The confidence scorer *)

(** What the scorer returns once some node carries a non-zero score: the
    clamped mean, the two adjustments, and the last [min]. *)
Lemma confidence_of_scored_nodes (a : pystr) (nodes : list Node) :
  truthy_scores nodes <> [] ->
  calculate_confidence_score {| response := Some a; source_nodes := nodes |} =
  let scores := truthy_scores nodes in
  let mean := (py_sum scores / inject_Z (len scores))%Q in
  let base := py_min 100 (py_max 0 (mean * 100)) in
  let penalised := if len a <? 50 then (base * 0.8)%Q else base in
  let boosted := if 3 <=? len nodes then (penalised * 1.1)%Q else penalised in
  Ok (py_min 100 boosted).
Proof.
  intros Hs. unfold calculate_confidence_score. cbn [source_nodes response].
  destruct nodes as [|n nodes]; [contradiction|].
  destruct (truthy_scores (n :: nodes)) eqn:E; [contradiction|].
  reflexivity.
Qed.

(** C8: for every answer text and every sequence of filtered matches the
    scorer returns a value between 0 and 100, the boost after the first
    clamp notwithstanding, and on the empty sequence it returns exactly 0. *)
Theorem C8_confidence_in_range :
  (forall (a : pystr) (nodes : list Node),
     exists c : Q,
       calculate_confidence_score {| response := Some a; source_nodes := nodes |}
         = Ok c /\ (0 <= c)%Q /\ (c <= 100)%Q) /\
  (forall a : option pystr,
     calculate_confidence_score {| response := a; source_nodes := [] |} = Ok 0%Q).
Proof.
  split; [|reflexivity].
  intros a nodes. destruct nodes as [|n nodes].
  - exists 0%Q. split; [reflexivity|]. split; lra.
  - destruct (truthy_scores (n :: nodes)) eqn:E.
    + exists 0.5%Q. unfold calculate_confidence_score.
      cbn [source_nodes]. rewrite E. split; [reflexivity|]. split; lra.
    + eexists. split.
      * apply confidence_of_scored_nodes. rewrite E. discriminate.
      * cbv zeta. split.
        -- apply py_min_glb; [lra|].
           apply scale_nonneg; [|lra].
           apply scale_nonneg; [|lra].
           apply clamp_bounds.
        -- apply py_min_le_l.
Qed.

Section ScorerAgainstSpec.

Local Open Scope Q_scope.

Lemma Qlt_bool_false (x y : Q) : Qlt_bool x y = false -> y <= x.
Proof.
  unfold Qlt_bool. rewrite negb_false_iff. apply Qle_bool_iff.
Qed.

Ltac by_order :=
  unfold Spec.clamp, py_min, py_max;
  repeat match goal with
    | |- context [Qlt_bool ?a ?b] =>
        lazymatch a with context [Qlt_bool _ _] => fail | _ => idtac end;
        lazymatch b with context [Qlt_bool _ _] => fail | _ => idtac end;
        let E := fresh "E" in
        destruct (Qlt_bool a b) eqn:E;
        [apply Qlt_bool_iff in E | apply Qlt_bool_false in E]
    end;
  lra.

Lemma clamp_is_min_max (x : Q) :
  py_min 100 (py_max 0 x) == Spec.clamp x 0 100.
Proof. by_order. Qed.

Lemma last_min_is_clamp (c : Q) : 0 <= c -> py_min 100 c == Spec.clamp c 0 100.
Proof. intros Hc. by_order. Qed.

Lemma clamp_proper (x y : Q) :
  x == y -> Spec.clamp x 0 100 == Spec.clamp y 0 100.
Proof. intros Hxy. by_order. Qed.

(** Where no match has a zero score, the comprehension of the source
    collects the defined scores. *)
Lemma truthy_scores_defined (nodes : list Node) :
  Forall (fun n => forall v, score n = ScoreVal v -> ~ v == 0) nodes ->
  truthy_scores nodes = Spec.defined_scores nodes.
Proof.
  induction 1 as [|n nodes Hn _ IH]; [reflexivity|].
  cbn [truthy_scores Spec.defined_scores].
  destruct (score n) as [| |v] eqn:Es; try exact IH.
  unfold float_truthy. destruct (Qeq_bool v 0) eqn:Ez.
  - apply Qeq_bool_iff in Ez. destruct (Hn v eq_refl Ez).
  - cbn [negb]. now rewrite IH.
Qed.

(** The part of the specification the source does implement: with at
    least one defined score and no score equal to zero, the scorer
    returns the value the specification describes. *)
Lemma scorer_refines_spec (a : pystr) (nodes : list Node) :
  Forall (fun n => forall v, score n = ScoreVal v -> ~ v == 0) nodes ->
  Spec.defined_scores nodes <> [] ->
  exists c,
    calculate_confidence_score {| response := Some a; source_nodes := nodes |}
      = Ok c /\ c == Spec.score a nodes.
Proof.
  intros Hnz Hdef. pose proof (truthy_scores_defined nodes Hnz) as Et.
  eexists. split.
  - apply confidence_of_scored_nodes. now rewrite Et.
  - cbv zeta. rewrite Et. unfold Spec.score, Spec.mean_score.
    destruct nodes as [|n nodes]; [contradiction|].
    destruct (Spec.defined_scores (n :: nodes)) as [|d ds] eqn:Ed;
      [contradiction|].
    set (mean := py_sum (d :: ds) / inject_Z (len (d :: ds))).
    pose proof (clamp_is_min_max (mean * 100)) as Hb.
    pose proof (clamp_bounds (mean * 100)) as [Hlo _].
    set (b := py_min 100 (py_max 0 (mean * 100))) in *.
    set (b' := Spec.clamp (mean * 100) 0 100) in *.
    rewrite last_min_is_clamp.
    + apply clamp_proper.
      destruct (len a <? 50)%Z, (3 <=? len (n :: nodes))%Z; cbv iota; lra.
    + apply scale_nonneg; [|lra]. apply scale_nonneg; [exact Hlo | lra].
Qed.

End ScorerAgainstSpec.

(** C1: the scorer is claimed to take 0.5 for the mean when no match of a
    non-empty sequence carries a score, so that the scaled confidence is 50
    before penalty and boost, and to average every defined score. The
    source returns 0.5 itself at that point, unscaled, and leaves a score
    of zero out of the mean: on one unscored match it yields 0.5 where the
    specification gives 50, on the scores 0.0 and 1.0 it yields 100 where
    the specification gives 50, and [process_query] with threshold 0.0 and
    a single match scored 0.0 reports the confidence 0.5. *)
Theorem C1_default_mean_returned_unscaled :
  calculate_confidence_score
    {| response := Some sixty_chars;
       source_nodes := [node_with_score ScoreNone] |} = Ok 0.5%Q /\
  (Spec.score sixty_chars [node_with_score ScoreNone] == 50)%Q /\
  calculate_confidence_score
    {| response := Some sixty_chars;
       source_nodes := [node_with_score (ScoreVal 0.0);
                        node_with_score (ScoreVal 1.0)] |} = Ok 100%Q /\
  (Spec.score sixty_chars [node_with_score (ScoreVal 0.0);
                           node_with_score (ScoreVal 1.0)] == 50)%Q /\
  (exists s,
     (process_query
        (env_answering (lit "en")
           {| response := Some sixty_chars;
              source_nodes := [node_with_score (ScoreVal 0.0)] |})
        (lit "What is the policy on refunds?") 5 0.0%Q None init_state).1
       = Ok (Success s) /\ confidence s = 0.5%Q).
Proof.
  split; [vm_compute; reflexivity|].
  split; [vm_compute; reflexivity|].
  split; [vm_compute; reflexivity|].
  split; [vm_compute; reflexivity|].
  eexists. split; [vm_compute; reflexivity | reflexivity].
Qed.

(** ** The worked examples of the specification *)

(** Scores 0.9, 0.8, 0.95 with a long answer: mean 0.8833, scaled and
    boosted to 97.17 after rounding to two decimals. *)
Example confidence_three_sources :
  exists c,
    calculate_confidence_score
      {| response := Some sixty_chars;
         source_nodes := [node_with_score (ScoreVal 0.9);
                          node_with_score (ScoreVal 0.8);
                          node_with_score (ScoreVal 0.95)] |} = Ok c /\
    (py_round2 c == 97.17)%Q.
Proof. eexists. split; [vm_compute; reflexivity | vm_compute; reflexivity]. Qed.

(** One match scored 0.5 and an answer of ten characters: 50 scaled, 40
    after the penalty. *)
Example confidence_short_answer :
  exists c,
    calculate_confidence_score
      {| response := Some (repeat 97%N 10);
         source_nodes := [node_with_score (ScoreVal 0.5)] |} = Ok c /\
    (c == 40)%Q.
Proof. eexists. split; [vm_compute; reflexivity | vm_compute; reflexivity]. Qed.

(** A text of 250 characters is cut to 200 and marked with three dots; a
    text of 100 characters is shown as it is. *)
Example snippet_truncation :
  let long_node := {| score := ScoreVal 0.9; metadata := ∅;
                      text := repeat 98%N 250 |} in
  let short_node := {| score := ScoreVal 0.9; metadata := ∅;
                       text := repeat 98%N 100 |} in
  map src_text_snippet (format_sources [long_node; short_node])
    = [repeat 98%N 200 ++ lit "..."; repeat 98%N 100] /\
  map src_index (format_sources [long_node; short_node]) = [1; 2].
Proof. split; vm_compute; reflexivity. Qed.

(** [format_sources] numbers the sources from 1 in input order. *)
Lemma format_sources_from_index (i : Z) (nodes : list Node) :
  map src_index (format_sources_from i nodes)
    = map (fun j => i + 1 + Z.of_nat j) (seq 0 (length nodes)).
Proof.
  revert i. induction nodes as [|n nodes IH]; intros i; [reflexivity|].
  cbn [format_sources_from map length seq src_index source_info].
  f_equal; [lia|]. rewrite IH, <- seq_shift, map_map.
  apply map_ext. intros j. lia.
Qed.

(** ** The threshold filter *)

(** Without a null score the comprehension is a plain, order-preserving
    filter: it keeps the nodes whose score is a float at or above the
    threshold and drops those without the attribute. *)
Lemma filtered_sources_without_null (nodes : list Node) (t : Q) :
  Forall (fun n => ~ null_score n) nodes ->
  filtered_sources nodes t = Ok (List.filter (passes t) nodes).
Proof.
  induction 1 as [|n nodes Hn _ IH]; [reflexivity|].
  cbn [filtered_sources List.filter]. rewrite IH.
  unfold hasattr_score, score_ge, passes, null_score in *.
  destruct (score n) as [| |v]; [reflexivity | contradiction | reflexivity].
Qed.

(** A null score anywhere in the sequence makes the comprehension raise. *)
Lemma filtered_sources_null (nodes : list Node) (t : Q) :
  Exists null_score nodes ->
  filtered_sources nodes t = Raise null_comparison.
Proof.
  induction nodes as [|n nodes IH]; intros Hex.
  - inversion Hex.
  - cbn [filtered_sources]. unfold hasattr_score, score_ge.
    destruct (score n) as [| |v] eqn:Es; cbn [rbind]; try reflexivity.
    all: rewrite IH; [reflexivity|];
      inversion Hex as [? ? Hnull | ? ? Htl]; subst; [|exact Htl];
      unfold null_score in Hnull; congruence.
Qed.

(** Whatever the filter returns contains no null score, only nodes that
    pass, and filtering it again changes nothing. *)
Lemma filtered_sources_ok (nodes kept : list Node) (t : Q) :
  filtered_sources nodes t = Ok kept ->
  Forall (fun n => passes t n = true) kept /\ sublist kept nodes.
Proof.
  revert kept. induction nodes as [|n nodes IH]; intros kept H.
  - injection H as <-. split; constructor.
  - cbn [filtered_sources] in H.
    destruct (filtered_sources nodes t) as [tl|e] eqn:Et.
    + destruct (IH tl eq_refl) as [Hall Hsub].
      unfold hasattr_score, score_ge in H.
      destruct (score n) as [| |v] eqn:Es; cbn [rbind] in H;
        try discriminate.
      * injection H as <-. split; [exact Hall | now constructor].
      * destruct (Qle_bool t v) eqn:Ev; injection H as <-.
        -- split; [|now constructor].
           constructor; [|exact Hall]. unfold passes. now rewrite Es.
        -- split; [exact Hall | now constructor].
    + unfold hasattr_score, score_ge in H.
      destruct (score n); cbn [rbind] in H; discriminate.
Qed.

Lemma filtered_sources_idempotent (nodes kept : list Node) (t : Q) :
  filtered_sources nodes t = Ok kept ->
  filtered_sources kept t = Ok kept.
Proof.
  intros H. apply filtered_sources_ok in H as [Hall _].
  rewrite filtered_sources_without_null.
  - f_equal. induction Hall as [|n kept Hn _ IH]; [reflexivity|].
    cbn [List.filter]. now rewrite Hn, IH.
  - eapply Forall_impl; [exact Hall|]. intros n Hn Hnull.
    unfold passes, null_score in *. rewrite Hnull in Hn. discriminate.
Qed.

(** C4: the filter is claimed to return, for every match sequence, the
    matches with a defined score at or above the threshold and to drop
    those lacking one. A match whose score holds [None] is not dropped:
    the comparison raises and no filtered sequence is returned at all,
    here with the scores 0.9, None, 0.8 and the threshold 0.7, where the
    matches scored 0.9 and 0.8 should have been kept. *)
Theorem C4_null_score_aborts_filter :
  filtered_sources
    [node_with_score (ScoreVal 0.9); node_with_score ScoreNone;
     node_with_score (ScoreVal 0.8)] 0.7%Q = Raise null_comparison /\
  List.filter (passes 0.7%Q)
    [node_with_score (ScoreVal 0.9); node_with_score ScoreNone;
     node_with_score (ScoreVal 0.8)]
  = [node_with_score (ScoreVal 0.9); node_with_score (ScoreVal 0.8)].
Proof. split; reflexivity. Qed.

(** ** The orchestration *)

Lemma process_query_paths env query k t f st :
  process_query env query k t f st = process_query_outcome env query k t f st.
Proof.
  unfold process_query, process_query_outcome, detect_query_language,
    try_except, bind, lift, log_call, ret, append_history,
    logged, recorded, no_results, answered, error_result, detected_language.
  cbn [query_history calls].
  destruct (detect env query) as [l|e0]; cbn [fst snd query_history calls].
  all: destruct (get_query_engine env k f) as [[eng|]|e1];
    cbn [query_history calls]; rewrite <- ?app_assoc; cbn [app]; try reflexivity.
  all: destruct (eng query) as [r0|e2];
    cbn [query_history calls]; rewrite <- ?app_assoc; cbn [app]; try reflexivity.
  all: destruct (filtered_sources (source_nodes r0) t) as [[|n kept]|e3];
    cbn [query_history calls response source_nodes]; try reflexivity.
  all: destruct (calculate_confidence_score _) as [c|e4]; reflexivity.
Qed.

(** Once the vector store manager has answered the request for an engine,
    [process_query] returns a result dict on every path. *)
Lemma process_query_returns env query k t f st o :
  get_query_engine env k f = Ok o ->
  exists r, (process_query env query k t f st).1 = Ok r.
Proof.
  intros Hg. rewrite process_query_paths. unfold process_query_outcome.
  rewrite Hg. destruct o as [eng|]; [|eauto].
  destruct (eng query) as [r0|e]; [|eauto].
  destruct (filtered_sources (source_nodes r0) t) as [[|n kept]|e]; eauto.
  destruct (calculate_confidence_score _); eauto.
Qed.

(** C2 (amended): a call of [process_query] appends its result to the
    history exactly when it returns a success that kept at least one
    source; the success reporting that no relevant document was found
    (its [sources] are empty), every failure, and a call that raises leave
    the history as it was. *)
Theorem C2_history_append_policy env query k t f st :
  match process_query env query k t f st with
  | (Ok (Success s), st') =>
      query_history st' =
      match sources s with
      | [] => query_history st
      | _ => query_history st ++ [Success s]
      end
  | (Ok (Failure _), st') => query_history st' = query_history st
  | (Raise _, st') => query_history st' = query_history st
  end.
Proof.
  rewrite process_query_paths. unfold process_query_outcome.
  destruct (get_query_engine env k f) as [[eng|]|e]; try reflexivity.
  destruct (eng query) as [r0|e]; try reflexivity.
  destruct (filtered_sources (source_nodes r0) t) as [[|n kept]|e];
    try reflexivity.
  destruct (calculate_confidence_score _); reflexivity.
Qed.

(** C2 as stated fails: the success returned when nothing survives the
    filter is not appended to the history. *)
Lemma C2_no_results_success_not_appended :
  ~ (forall env query k t f st r st',
       process_query env query k t f st = (Ok r, st') ->
       get_success r = true ->
       query_history st' = query_history st ++ [r]).
Proof.
  intros H.
  specialize (H env_no_match refund_query 5 0.7%Q None init_state _ _ eq_refl eq_refl).
  vm_compute in H. discriminate H.
Qed.

(** C3: every error is claimed to be turned into a failure result, the
    construction of the query engine included. The request for the engine
    sits before the [try], so an exception raised by
    [vector_store_manager.get_query_engine] leaves [process_query] as an
    exception. *)
Theorem C3_engine_construction_error_escapes env query k t f st e :
  get_query_engine env k f = Raise e ->
  (process_query env query k t f st).1 = Raise e.
Proof.
  intros Hg. rewrite process_query_paths. unfold process_query_outcome.
  now rewrite Hg.
Qed.

(** The manager raising on the refund query. *)
Lemma C3_engine_construction_error_escapes_witness :
  get_query_engine env_broken_manager 5 None
    = Raise (CollaboratorError (lit "validation error for MetadataFilter")) /\
  (process_query env_broken_manager refund_query 5 0.7%Q None init_state).1
    = Raise (CollaboratorError (lit "validation error for MetadataFilter")).
Proof.
  split; [reflexivity|].
  apply (C3_engine_construction_error_escapes env_broken_manager refund_query
           5 0.7%Q None init_state).
  reflexivity.
Defined.

(** When the engine answered and the comprehension returns the empty
    list, [process_query] returns a success with confidence exactly 0.0,
    no sources and the canned answer, in Russian when the detected
    language is "ru" and in English otherwise; the log shows the single
    call to the engine's [query], and the history is untouched. *)
Lemma no_relevant_documents_on_empty_filter env query k t f st engine_query r0 :
  get_query_engine env k f = Ok (Some engine_query) ->
  engine_query query = Ok r0 ->
  filtered_sources (source_nodes r0) t = Ok [] ->
  process_query env query k t f st =
  (Ok (Success
         {| answer := Some (if bool_decide (detected_language env query = lit "ru")
                            then no_documents_ru else no_documents_en);
            confidence := 0%Q;
            sources := [];
            language := detected_language env query;
            query := query;
            timestamp := now env |}),
   {| query_history := query_history st;
      calls := calls st ++
               [CallDetect query; CallGetQueryEngine k f; CallQuery query] |}).
Proof.
  intros Hg Hq Hf. rewrite process_query_paths. unfold process_query_outcome.
  now rewrite Hg, Hq, Hf.
Qed.

(** The same for a retrieval without a [None] score none of whose matches
    reaches the threshold: that is as far as the source goes towards the
    short-circuit on an empty filtered set. *)
Lemma no_relevant_documents_without_null env query k t f st engine_query r0 :
  get_query_engine env k f = Ok (Some engine_query) ->
  engine_query query = Ok r0 ->
  Forall (fun n => ~ null_score n) (source_nodes r0) ->
  List.filter (passes t) (source_nodes r0) = [] ->
  process_query env query k t f st =
  (Ok (no_results env query),
   {| query_history := query_history st;
      calls := calls st ++
               [CallDetect query; CallGetQueryEngine k f; CallQuery query] |}).
Proof.
  intros Hg Hq Hno Hempty.
  apply (no_relevant_documents_on_empty_filter env query k t f st engine_query r0 Hg Hq).
  rewrite (filtered_sources_without_null _ t Hno). now rewrite Hempty.
Qed.

(** The refund query with an empty retrieval, answered in English. *)
Example no_relevant_documents_on_empty_retrieval :
  process_query env_no_match refund_query 5 0.7%Q None init_state =
  (Ok (Success
         {| answer := Some no_documents_en;
            confidence := 0%Q;
            sources := [];
            language := lit "en";
            query := refund_query;
            timestamp := now env_no_match |}),
   {| query_history := [];
      calls := [CallDetect refund_query; CallGetQueryEngine 5 None;
                CallQuery refund_query] |}).
Proof. vm_compute. reflexivity. Qed.

(** C5: every query whose filtered match set is empty is claimed to get
    the success without sources and with confidence 0.0. The filter the
    claim speaks of drops a match that lacks a score, so a retrieval made
    of unscored matches only leaves an empty set; the comprehension of
    the source raises on the [None] score instead, and [process_query]
    returns a failure for the query, without the canned answer. On a
    retrieval without a [None] score the claim holds
    ([no_relevant_documents_without_null]). *)
Theorem C5_unscored_matches_fail_the_query :
  let r := {| response := Some sixty_chars;
              source_nodes := [node_with_score ScoreNone] |} in
  let run := process_query (env_answering (lit "en") r) refund_query
               5 0.7%Q None init_state in
  List.filter (passes 0.7%Q) (source_nodes r) = [] /\
  run.1 = Ok (Failure
                (lit "Error processing query: " ++
                 lit "'>=' not supported between instances of 'NoneType' and 'float'")) /\
  returned_success run.1 = false /\
  run.1 <> Ok (no_results (env_answering (lit "en") r) refund_query).
Proof.
  intros r run.
  assert (H : run.1 = Ok (Failure
                (lit "Error processing query: " ++
                 lit "'>=' not supported between instances of 'NoneType' and 'float'")))
    by (vm_compute; reflexivity).
  split; [reflexivity|]. split; [exact H|]. rewrite H.
  split; [reflexivity | discriminate].
Qed.

(** C10: a match whose score holds [None] is not dropped by the threshold
    filter; the comparison raises, the handler of [process_query] turns
    that into a failure result for the whole query, and nothing is added
    to the history. *)
Theorem C10_null_score_fails_whole_query env query k t f st engine_query r0 :
  get_query_engine env k f = Ok (Some engine_query) ->
  engine_query query = Ok r0 ->
  Exists null_score (source_nodes r0) ->
  filtered_sources (source_nodes r0) t = Raise null_comparison /\
  (process_query env query k t f st).1 =
    Ok (Failure
          (lit "Error processing query: " ++
           lit "'>=' not supported between instances of 'NoneType' and 'float'")) /\
  query_history (process_query env query k t f st).2 = query_history st.
Proof.
  intros Hg Hq Hnull.
  pose proof (filtered_sources_null _ t Hnull) as Hf.
  split; [exact Hf|].
  rewrite process_query_paths. unfold process_query_outcome.
  rewrite Hg, Hq, Hf. split; reflexivity.
Qed.

(** The scores 0.9, None, 0.8 under the threshold 0.7. *)
Lemma C10_null_score_fails_whole_query_witness :
  let env := env_answering (lit "en") response_with_null_score in
  Exists null_score (source_nodes response_with_null_score) /\
  (process_query env refund_query 5 0.7%Q None init_state).1 =
    Ok (Failure
          (lit "Error processing query: " ++
           lit "'>=' not supported between instances of 'NoneType' and 'float'")) /\
  query_history (process_query env refund_query 5 0.7%Q None init_state).2 = [].
Proof.
  intros env.
  assert (Hnull : Exists null_score (source_nodes response_with_null_score)).
  { apply Exists_cons_tl, Exists_cons_hd. reflexivity. }
  split; [exact Hnull|].
  exact (proj2 (C10_null_score_fails_whole_query env refund_query 5 0.7%Q None
                  init_state (fun _ => Ok response_with_null_score)
                  response_with_null_score eq_refl eq_refl Hnull)).
Defined.

(** ** The prompt selector *)

Lemma get_language_prompt_rule (language : pystr) :
  get_language_prompt language =
  if bool_decide (language = lit "ru") then prompt_ru else prompt_en.
Proof.
  unfold get_language_prompt.
  assert (Hne : lit "ru" <> lit "en") by (vm_compute; discriminate).
  rewrite lookup_total_insert_ne by exact Hne.
  rewrite lookup_total_insert_eq.
  case_bool_decide as Hru.
  - subst language. now rewrite lookup_insert_eq.
  - rewrite lookup_insert_ne by congruence.
    destruct (decide (language = lit "en")) as [->|Hen].
    + now rewrite lookup_insert_eq.
    + rewrite lookup_insert_ne by congruence. now rewrite lookup_empty.
Qed.

(** C7 (amended): the selector returns the Russian template for "ru" and
    the English one for every other code, but [process_query] does not
    consult it: whatever the detected language, the collaborators are
    called with the query text, [similarity_top_k] and the metadata
    filters only, the engine's [query] receiving the bare query text. *)
Theorem C7_prompt_rule_and_collaborator_inputs :
  (forall language,
     get_language_prompt language =
     if bool_decide (language = lit "ru") then prompt_ru else prompt_en) /\
  (forall env query k t f st,
     calls (process_query env query k t f st).2 =
     calls st ++ [CallDetect query; CallGetQueryEngine k f] ++
     match get_query_engine env k f with
     | Ok (Some _) => [CallQuery query]
     | _ => []
     end).
Proof.
  split; [exact get_language_prompt_rule|].
  intros env query k t f st. rewrite process_query_paths.
  unfold process_query_outcome.
  destruct (get_query_engine env k f) as [[eng|]|e]; try reflexivity.
  destruct (eng query) as [r0|e]; try reflexivity.
  destruct (filtered_sources (source_nodes r0) t) as [[|n kept]|e];
    try reflexivity.
  destruct (calculate_confidence_score _); reflexivity.
Qed.

(** C7 as stated fails: in a run whose query is detected as Russian, no
    call to a collaborator carries the selected template. *)
Lemma C7_template_never_supplied :
  ~ (forall env query k t f st,
       exists c,
         In c (calls (process_query env query k t f st).2) /\
         In (get_language_prompt (detected_language env query)) (call_strings c)).
Proof.
  intros H.
  destruct (H (env_answering (lit "ru") one_good_match) privet 5 0.7%Q None
              init_state) as [c [Hc Hs]].
  rewrite get_language_prompt_rule in Hs.
  vm_compute in Hc.
  destruct Hc as [<-|[<-|[<-|[]]]]; vm_compute in Hs;
    repeat (destruct Hs as [Hs|Hs]; [discriminate Hs|]); exact Hs.
Qed.

(** ** The history *)

(** For a positive limit [get_query_history] returns the last
    [min(limit, len(history))] entries in insertion order. *)
Lemma get_query_history_positive (limit : Z) (st : State) :
  0 < limit ->
  get_query_history limit st =
  drop (length (query_history st)
        - Z.to_nat (Z.min limit (len (query_history st))))%nat
       (query_history st).
Proof.
  intros Hl. unfold get_query_history.
  destruct (query_history st) as [|q h] eqn:Eh; [reflexivity|].
  unfold slice_from, slice_bound, len.
  destruct (- limit <? 0) eqn:E; [|lia].
  f_equal. lia.
Qed.

(** C6: [get_query_history(0)] is claimed to be empty. The slice
    [query_history[-0:]] starts at index 0, so a limit of zero returns the
    whole history: one entry after one answered query, where none is
    expected. *)
Theorem C6_limit_zero_returns_whole_history :
  (forall st, get_query_history 0 st = query_history st) /\
  length (query_history state_after_one_answer) = 1%nat /\
  length (get_query_history 0 state_after_one_answer) = 1%nat.
Proof.
  split; [|split; vm_compute; reflexivity].
  intros st. unfold get_query_history.
  destruct (query_history st); reflexivity.
Qed.

(** ** History and statistics *)

Lemma process_query_history env query k t f st :
  (query_history (process_query env query k t f st).2 = query_history st /\
   returned_sources (process_query env query k t f st).1 = false) \/
  exists s, (process_query env query k t f st).1 = Ok (Success s) /\
            sources s <> [] /\
            query_history (process_query env query k t f st).2
              = query_history st ++ [Success s].
Proof.
  rewrite process_query_paths. unfold process_query_outcome.
  destruct (get_query_engine env k f) as [[eng|]|e]; try (left; split; reflexivity).
  destruct (eng query) as [r0|e]; try (left; split; reflexivity).
  destruct (filtered_sources (source_nodes r0) t) as [[|n kept]|e];
    try (left; split; reflexivity).
  destruct (calculate_confidence_score _) as [c|e]; [|left; split; reflexivity].
  right. eexists. split; [reflexivity|]. split; [discriminate | reflexivity].
Qed.

Lemma step_all_success st st' :
  step st st' -> all_success (query_history st) -> all_success (query_history st').
Proof.
  unfold all_success.
  intros [env query k t f st0 | st0] Hall.
  - destruct (process_query_history env query k t f st0)
      as [[-> _] | (s & _ & _ & ->)].
    + exact Hall.
    + apply Forall_app. split; [exact Hall|]. now constructor.
  - constructor.
Qed.

Lemma reachable_all_success st :
  reachable st -> all_success (query_history st).
Proof.
  unfold reachable. intros Hr. pattern st. revert st Hr. apply rtc_ind_r.
  - constructor.
  - intros y z _ Hstep IH. eapply step_all_success; eassumption.
Qed.

Lemma filter_all_success (h : list QueryResult) :
  all_success h -> List.filter get_success h = h.
Proof.
  induction 1 as [|q h Hq _ IH]; [reflexivity|].
  cbn [List.filter]. now rewrite Hq, IH.
Qed.

Lemma total_queries_len st :
  total_queries (get_statistics st) = len (query_history st).
Proof. unfold get_statistics. destruct (query_history st); reflexivity. Qed.

(** Over a run of calls the history grows by one entry for each call that
    returned a success with sources, and by nothing else. *)
Lemma run_calls_history (cs : list ProcessCall) (st : State) :
  len (query_history (run_calls cs st).2) =
  len (query_history st) + len (List.filter returned_sources (run_calls cs st).1).
Proof.
  revert st. induction cs as [|c cs IH]; intros st.
  - cbn. unfold len. cbn. lia.
  - cbn [run_calls]. unfold run_call.
    pose proof (process_query_history (pc_env c) (pc_query c) (pc_top_k c)
                  (pc_threshold c) (pc_filters c) st) as Hstep.
    destruct (process_query (pc_env c) (pc_query c) (pc_top_k c)
                (pc_threshold c) (pc_filters c) st) as [r st1] eqn:Ep.
    specialize (IH st1). destruct (run_calls cs st1) as [rs st2] eqn:Er.
    cbn [fst snd] in *. rewrite IH. cbn [List.filter].
    destruct Hstep as [[-> ->] | (s & -> & Hs & ->)]; [reflexivity|].
    cbn [returned_sources]. destruct (sources s); [contradiction|].
    unfold len. rewrite length_app. cbn [length]. lia.
Qed.

(** C9 (amended): in every reachable state the history holds successes
    only, so that on a non-empty history [get_statistics] reports
    [successful_queries] equal to [total_queries], and after
    [clear_history] it reports [total_queries] 0. Starting from a fresh
    engine, [total_queries] is the number of calls that returned a success
    with at least one source: three such calls give 3 whatever the number
    of failed calls among them, while a success reporting that no relevant
    document was found is not counted. *)
Theorem C9_history_statistics :
  (forall st, reachable st ->
     all_success (query_history st) /\
     (query_history st <> [] ->
      successful_queries (get_statistics st)
        = Some (total_queries (get_statistics st))) /\
     total_queries (get_statistics (clear_history st).2) = 0) /\
  (forall cs,
     total_queries (get_statistics (run_calls cs init_state).2)
       = len (List.filter returned_sources (run_calls cs init_state).1)) /\
  (forall cs,
     len (List.filter returned_sources (run_calls cs init_state).1) = 3 ->
     total_queries (get_statistics (run_calls cs init_state).2) = 3).
Proof.
  assert (Hcount : forall cs,
     total_queries (get_statistics (run_calls cs init_state).2)
       = len (List.filter returned_sources (run_calls cs init_state).1)).
  { intros cs. rewrite total_queries_len, run_calls_history. reflexivity. }
  split; [|split; [exact Hcount | intros cs H3; now rewrite Hcount]].
  intros st Hr. pose proof (reachable_all_success st Hr) as Hall.
  split; [exact Hall|]. split; [|reflexivity].
  intros Hne. unfold get_statistics.
  destruct (query_history st) as [|q h] eqn:Eh; [contradiction|].
  cbn [successful_queries total_queries].
  now rewrite (filter_all_success _ Hall).
Qed.

(** The state after one answered query, and three answered calls with a
    failed one among them. *)
Lemma C9_history_statistics_witness :
  (reachable state_after_one_answer /\
   query_history state_after_one_answer <> [] /\
   successful_queries (get_statistics state_after_one_answer) = Some 1) /\
  (len (List.filter returned_sources
          (run_calls [call_answered; call_answered; call_failing; call_answered]
             init_state).1) = 3 /\
   total_queries
     (get_statistics
        (run_calls [call_answered; call_answered; call_failing; call_answered]
           init_state).2) = 3).
Proof.
  assert (Hr : reachable state_after_one_answer).
  { apply rtc_once. apply step_process_query. }
  assert (Hne : query_history state_after_one_answer <> []).
  { vm_compute. discriminate. }
  assert (H3 : len (List.filter returned_sources
          (run_calls [call_answered; call_answered; call_failing; call_answered]
             init_state).1) = 3).
  { vm_compute. reflexivity. }
  split; [split; [exact Hr | split; [exact Hne|]] | split; [exact H3|]].
  - etransitivity.
    + exact (proj1 (proj2 (proj1 C9_history_statistics _ Hr)) Hne).
    + vm_compute. reflexivity.
  - exact (proj2 (proj2 C9_history_statistics) _ H3).
Defined.

(** C9 as stated fails: of three calls that return a success and one that
    returns a failure, only the successes with sources are counted, so
    [total_queries] is 2 when one of the three found no relevant
    document; and on the empty history of a fresh engine the statistics
    carry no [successful_queries] to compare [total_queries] with. *)
Lemma C9_success_without_sources_not_counted :
  ~ (forall cs,
       len (List.filter returned_success (run_calls cs init_state).1) = 3 ->
       len (List.filter returned_failure (run_calls cs init_state).1) = 1 ->
       total_queries (get_statistics (run_calls cs init_state).2) = 3) /\
  ~ (forall st, reachable st ->
       successful_queries (get_statistics st)
         = Some (total_queries (get_statistics st))).
Proof.
  split.
  - intros H.
    specialize (H [call_answered; call_no_match; call_failing; call_answered]).
    vm_compute in H. specialize (H eq_refl eq_refl). discriminate H.
  - intros H. specialize (H init_state (rtc_refl _ _)). discriminate H.
Qed.

(** * Further properties of the query engine *)

(** ** format_sources *)

Lemma format_sources_from_imap (i : Z) (nodes : list Node) :
  format_sources_from i nodes
    = imap (fun j node => source_info (i + Z.of_nat j) node) nodes.
Proof.
  revert i. induction nodes as [|n nodes IH]; intros i; [reflexivity|].
  cbn [format_sources_from imap]. f_equal.
  - f_equal. lia.
  - rewrite IH. apply imap_ext. intros j node _. cbn. f_equal. lia.
Qed.

(** X1: [format_sources] yields one entry per node, in the order of the
    nodes, the entry at position [j] (from 0) being built from the node at
    position [j] and numbered [j + 1]. *)
Theorem X1_format_sources_positions (nodes : list Node) :
  format_sources nodes
    = imap (fun j node => source_info (Z.of_nat j) node) nodes /\
  length (format_sources nodes) = length nodes /\
  map src_index (format_sources nodes)
    = map (fun j => Z.of_nat j + 1) (seq 0 (length nodes)).
Proof.
  assert (H : format_sources nodes
              = imap (fun j node => source_info (Z.of_nat j) node) nodes).
  { unfold format_sources. rewrite format_sources_from_imap.
    apply imap_ext. intros j node _. cbn. f_equal. }
  split; [exact H|]. split.
  - rewrite H. apply length_imap.
  - unfold format_sources. rewrite format_sources_from_index.
    apply map_ext. intros j. lia.
Qed.

(** X2: the text snippet of a source never exceeds 203 characters and
    agrees with the node's text on the first 200 characters. *)
Theorem X2_snippet_bounded (i : Z) (node : Node) :
  len (src_text_snippet (source_info i node)) <= 203 /\
  take 200 (src_text_snippet (source_info i node)) = take 200 (text node).
Proof.
  cbn [source_info src_text_snippet]. unfold slice_to, slice_bound, len.
  destruct (200 <? Z.of_nat (length (text node))) eqn:E;
    [apply Z.ltb_lt in E | apply Z.ltb_ge in E].
  - change (200 <? 0) with false. cbv iota.
    replace (Z.to_nat (Z.min 200 (Z.of_nat (length (text node)))))
      with 200%nat by lia.
    split.
    + rewrite length_app, length_take. change (length (lit "...")) with 3%nat. lia.
    + rewrite take_app_le by (rewrite length_take; lia).
      apply take_take.
  - split; [lia | reflexivity].
Qed.

(** ** What a successful query returns *)

(** The scorer's value is between 0 and 100 whenever it returns, whether
    or not the response carries a text. *)
Lemma calculate_confidence_score_range (r : Response) (c : Q) :
  calculate_confidence_score r = Ok c -> (0 <= c)%Q /\ (c <= 100)%Q.
Proof.
  destruct r as [a nodes]. unfold calculate_confidence_score.
  cbn [source_nodes response].
  destruct nodes as [|n nodes]; [intros [= <-]; split; lra|].
  destruct (truthy_scores (n :: nodes)) as [|s0 scores];
    [intros [= <-]; split; lra|].
  destruct a as [a|]; cbn [len_opt rbind]; [|discriminate].
  intros [= <-]. split.
  - apply py_min_glb; [lra|].
    apply scale_nonneg; [|lra]. apply scale_nonneg; [|lra].
    apply clamp_bounds.
  - apply py_min_le_l.
Qed.

(** The two ways [process_query] returns a success: the canned answer
    without sources, or the scored answer built from the nodes that the
    filter kept. *)
Lemma process_query_success_inv env query k t f st s :
  (process_query env query k t f st).1 = Ok (Success s) ->
  Success s = no_results env query \/
  exists engine_query r0 kept c,
    get_query_engine env k f = Ok (Some engine_query) /\
    engine_query query = Ok r0 /\
    filtered_sources (source_nodes r0) t = Ok kept /\
    kept <> [] /\
    calculate_confidence_score
      {| response := response r0; source_nodes := kept |} = Ok c /\
    Success s = answered env query r0 kept c.
Proof.
  rewrite process_query_paths. unfold process_query_outcome.
  destruct (get_query_engine env k f) as [[eng|]|e] eqn:Eg; try discriminate.
  destruct (eng query) as [r0|e] eqn:Eq; try discriminate.
  destruct (filtered_sources (source_nodes r0) t) as [[|n kept]|e] eqn:Ef;
    try discriminate.
  - intros [= <-]. left. reflexivity.
  - destruct (calculate_confidence_score _) as [c|e] eqn:Ec; try discriminate.
    intros [= <-]. right. exists eng, r0, (n :: kept), c.
    repeat split; try assumption; discriminate.
Qed.

(** X3: every source listed in a successful result carries a float score
    at or above the similarity threshold of the call, and the sources are
    numbered 1, 2, ... in order. *)
Theorem X3_sources_meet_threshold env query k t f st s :
  (process_query env query k t f st).1 = Ok (Success s) ->
  Forall (fun src => exists v, src_score src = Some v /\ (t <= v)%Q) (sources s) /\
  map src_index (sources s)
    = map (fun j => Z.of_nat j + 1) (seq 0 (length (sources s))).
Proof.
  intros H. apply process_query_success_inv in H
    as [H | (eng & r0 & kept & c & _ & _ & Hf & _ & _ & H)].
  - injection H as ->. split; constructor.
  - injection H as ->. cbn [sources].
    apply filtered_sources_ok in Hf as [Hall _]. split.
    + unfold format_sources. generalize 0.
      induction Hall as [|n kept Hn _ IH]; intros i; [constructor|].
      cbn [format_sources_from]. constructor; [|apply IH].
      cbn [source_info src_score]. unfold passes, getattr_score in *.
      destruct (score n) as [| |v]; try discriminate.
      exists v. split; [reflexivity|]. now apply Qle_bool_iff.
    + pose proof (Hpos := format_sources_from_index 0 kept).
      unfold format_sources at 1. rewrite Hpos.
      unfold format_sources. rewrite format_sources_from_imap, length_imap.
      apply map_ext. intros j. lia.
Qed.

Lemma X3_sources_meet_threshold_witness :
  let run := process_query (env_answering (lit "en") one_good_match)
               refund_query 5 0.7%Q None init_state in
  exists s,
    run.1 = Ok (Success s) /\
    Forall (fun src => exists v, src_score src = Some v /\ (0.7 <= v)%Q)
           (sources s) /\
    map src_index (sources s) = [1].
Proof.
  intros run. eexists. split; [vm_compute; reflexivity|].
  assert (H : run.1 = Ok (Success
    {| answer := Some sixty_chars; confidence := 90.0%Q;
       sources := format_sources [node_with_score (ScoreVal 0.9)];
       language := lit "en"; query := refund_query;
       timestamp := lit "2024-05-01T12:00:00" |})) by (vm_compute; reflexivity).
  destruct (X3_sources_meet_threshold _ _ _ _ _ _ _ H) as [Hs Hi].
  split; [exact Hs | exact Hi].
Defined.

(** X4: the confidence of every successful result lies between 0 and 100. *)
Theorem X4_success_confidence_in_range env query k t f st s :
  (process_query env query k t f st).1 = Ok (Success s) ->
  (0 <= confidence s)%Q /\ (confidence s <= 100)%Q.
Proof.
  intros H. apply process_query_success_inv in H
    as [H | (eng & r0 & kept & c & _ & _ & _ & _ & Hc & H)];
    injection H as ->; cbn [confidence].
  - split; lra.
  - exact (calculate_confidence_score_range _ _ Hc).
Qed.

Lemma X4_success_confidence_in_range_witness :
  exists s,
    (process_query (env_answering (lit "en") one_good_match)
       refund_query 5 0.7%Q None init_state).1 = Ok (Success s) /\
    (0 <= confidence s)%Q /\ (confidence s <= 100)%Q.
Proof.
  eexists. split; [vm_compute; reflexivity|].
  refine (X4_success_confidence_in_range
            (env_answering (lit "en") one_good_match)
            refund_query 5 0.7%Q None init_state _ _).
  vm_compute. reflexivity.
Defined.

(** ** Errors and the language detector *)

(** X5: once the vector store manager has answered the request for an
    engine (with an engine or with [None]), [process_query] does not raise:
    it returns a result dict, and when the engine's [query] raises [e] that
    dict is the failure "Error processing query: " followed by [str(e)]. *)
Theorem X5_no_exception_after_engine_request env query k t f st o :
  get_query_engine env k f = Ok o ->
  (exists r, (process_query env query k t f st).1 = Ok r) /\
  (forall engine_query e,
     o = Some engine_query -> engine_query query = Raise e ->
     (process_query env query k t f st).1
       = Ok (Failure (lit "Error processing query: " ++ str_of_exception e))).
Proof.
  intros Hg. rewrite process_query_paths. unfold process_query_outcome.
  rewrite Hg. split.
  - destruct o as [eng|]; [|eauto].
    destruct (eng query) as [r0|e]; [|eauto].
    destruct (filtered_sources (source_nodes r0) t) as [[|n kept]|e]; eauto.
    destruct (calculate_confidence_score _); eauto.
  - intros eng e -> He. rewrite He. reflexivity.
Qed.

Lemma X5_no_exception_after_engine_request_witness :
  let c := call_failing in
  get_query_engine (pc_env c) 5 None
    = Ok (Some (fun _ => Raise (CollaboratorError (lit "connection reset")))) /\
  (process_query (pc_env c) refund_query 5 0.7%Q None init_state).1
    = Ok (Failure (lit "Error processing query: " ++ lit "connection reset")).
Proof.
  intros c. split; [reflexivity|].
  etransitivity.
  - exact (proj2 (X5_no_exception_after_engine_request (pc_env c) refund_query
                    5 0.7%Q None init_state _ eq_refl)
                 _ (CollaboratorError (lit "connection reset")) eq_refl eq_refl).
  - vm_compute. reflexivity.
Defined.

(** X6: a language detector that raises does not fail the query: the call
    proceeds exactly as if the detector had answered "en", with the same
    returned value and the same final state. *)
Theorem X6_detection_failure_means_english env query k t f st e :
  detect env query = Raise e ->
  process_query env query k t f st =
  process_query {| detect := fun _ => Ok (lit "en");
                   get_query_engine := get_query_engine env;
                   now := now env |} query k t f st.
Proof.
  intros Hd. rewrite !process_query_paths.
  unfold process_query_outcome, no_results, answered, detected_language.
  cbn [detect get_query_engine now]. rewrite Hd. reflexivity.
Qed.

Lemma X6_detection_failure_means_english_witness :
  detect env_detector_failing privet
    = Raise (CollaboratorError (lit "No features in text.")) /\
  process_query env_detector_failing privet 5 0.7%Q None init_state =
  process_query (env_answering (lit "en") one_good_match) privet 5 0.7%Q None
    init_state.
Proof.
  split; [reflexivity|].
  etransitivity.
  - exact (X6_detection_failure_means_english env_detector_failing privet
             5 0.7%Q None init_state _ eq_refl).
  - vm_compute. reflexivity.
Defined.

(** ** More on the threshold filter *)

Lemma null_score_dec (nodes : list Node) :
  Forall (fun n => ~ null_score n) nodes \/ Exists null_score nodes.
Proof.
  induction nodes as [|n nodes [IH|IH]].
  - left. constructor.
  - destruct (score n) as [| |v] eqn:Es.
    + left. constructor; [unfold null_score; congruence | exact IH].
    + right. now constructor.
    + left. constructor; [unfold null_score; congruence | exact IH].
  - right. now constructor 2.
Qed.

Lemma filtered_sources_inv (nodes kept : list Node) (t : Q) :
  filtered_sources nodes t = Ok kept ->
  Forall (fun n => ~ null_score n) nodes /\ kept = List.filter (passes t) nodes.
Proof.
  intros H. destruct (null_score_dec nodes) as [Hno|Hex].
  - split; [exact Hno|].
    rewrite (filtered_sources_without_null _ t Hno) in H. now injection H.
  - rewrite (filtered_sources_null _ t Hex) in H. discriminate.
Qed.

(** X7: the threshold filter returns a list exactly when no node has a
    null score, and what it returns is then the order-preserving selection
    of the nodes whose score is a float at or above the threshold (nodes
    without a score attribute are dropped). *)
Theorem X7_filter_characterisation (nodes kept : list Node) (t : Q) :
  filtered_sources nodes t = Ok kept <->
  Forall (fun n => ~ null_score n) nodes /\ kept = List.filter (passes t) nodes.
Proof.
  split; [apply filtered_sources_inv|].
  intros [Hno ->]. now apply filtered_sources_without_null.
Qed.

Lemma passes_tighten (t1 t2 : Q) (n : Node) :
  (t1 <= t2)%Q -> passes t2 n = true -> passes t1 n = true.
Proof.
  unfold passes. destruct (score n) as [| |v]; try discriminate.
  intros Ht H. apply Qle_bool_iff. apply Qle_bool_iff in H.
  eapply Qle_trans; eassumption.
Qed.

Lemma filter_passes_tighten (t1 t2 : Q) (nodes : list Node) :
  (t1 <= t2)%Q ->
  List.filter (passes t2) (List.filter (passes t1) nodes)
    = List.filter (passes t2) nodes.
Proof.
  intros Ht. induction nodes as [|n nodes IH]; [reflexivity|].
  cbn [List.filter]. destruct (passes t1 n) eqn:E1.
  - cbn [List.filter]. now rewrite IH.
  - rewrite IH. destruct (passes t2 n) eqn:E2; [|reflexivity].
    rewrite (passes_tighten t1 t2 n Ht E2) in E1. discriminate.
Qed.

(** X8: filtering again, with the same or a higher threshold, what the
    filter returned gives what filtering the retrieved nodes with that
    threshold gives; with the same threshold it gives back the same list. *)
Theorem X8_filter_composes (nodes kept : list Node) (t1 t2 : Q) :
  (t1 <= t2)%Q ->
  filtered_sources nodes t1 = Ok kept ->
  filtered_sources kept t2 = filtered_sources nodes t2 /\
  filtered_sources kept t1 = Ok kept.
Proof.
  intros Ht H. split; [|eapply filtered_sources_idempotent; exact H].
  pose proof (filtered_sources_idempotent _ _ _ H) as Hk.
  apply filtered_sources_inv in H as [Hno ->].
  apply filtered_sources_inv in Hk as [Hnok _].
  rewrite (filtered_sources_without_null _ t2 Hno).
  rewrite (filtered_sources_without_null _ t2 Hnok).
  f_equal. now apply filter_passes_tighten.
Qed.

Lemma X8_filter_composes_witness :
  let nodes := [node_with_score (ScoreVal 0.9); node_with_score NoScoreAttr;
                node_with_score (ScoreVal 0.75); node_with_score (ScoreVal 0.2)] in
  let kept := [node_with_score (ScoreVal 0.9); node_with_score (ScoreVal 0.75)] in
  ((0.7 <= 0.8)%Q /\ filtered_sources nodes 0.7%Q = Ok kept) /\
  filtered_sources kept 0.8%Q = filtered_sources nodes 0.8%Q /\
  filtered_sources kept 0.7%Q = Ok kept.
Proof.
  intros nodes kept.
  assert (Ht : (0.7 <= 0.8)%Q) by (vm_compute; discriminate).
  assert (H : filtered_sources nodes 0.7%Q = Ok kept) by reflexivity.
  split; [split; assumption|].
  exact (X8_filter_composes nodes kept 0.7%Q 0.8%Q Ht H).
Defined.

(** ** More on the scorer *)

Lemma py_min_le_r (a b : Q) : (py_min a b <= b)%Q.
Proof.
  unfold py_min. destruct (Qlt_bool b a) eqn:E.
  - apply Qle_refl.
  - apply Qlt_bool_false in E. exact E.
Qed.

Lemma py_min_mono_r (a b b' : Q) : (b <= b')%Q -> (py_min a b <= py_min a b')%Q.
Proof.
  intros H. unfold py_min.
  destruct (Qlt_bool b a) eqn:E, (Qlt_bool b' a) eqn:E';
    try apply Qlt_bool_iff in E; try apply Qlt_bool_false in E;
    try apply Qlt_bool_iff in E'; try apply Qlt_bool_false in E'; lra.
Qed.

(** X9: for an answer shorter than 50 characters the confidence never
    exceeds 88, and with fewer than three source nodes it never exceeds 80. *)
Theorem X9_short_answer_cap (a : pystr) (nodes : list Node) (c : Q) :
  len a < 50 ->
  calculate_confidence_score {| response := Some a; source_nodes := nodes |}
    = Ok c ->
  (c <= 88)%Q /\ (len nodes < 3 -> (c <= 80)%Q).
Proof.
  intros Ha. unfold calculate_confidence_score. cbn [source_nodes response].
  destruct nodes as [|n nodes]; [intros [= <-]; split; [|intros _]; lra|].
  destruct (truthy_scores (n :: nodes)) as [|s0 scores];
    [intros [= <-]; split; [|intros _]; lra|].
  cbn [len_opt rbind]. apply Z.ltb_lt in Ha. rewrite Ha.
  set (mean := (py_sum (s0 :: scores) / inject_Z (len (s0 :: scores)))%Q).
  pose proof (clamp_bounds (mean * 100)) as [Hlo Hhi].
  set (b := py_min 100 (py_max 0 (mean * 100))) in *.
  intros [= <-].
  destruct (3 <=? len (n :: nodes)) eqn:E3.
  - split.
    + eapply Qle_trans; [apply py_min_le_r|]. lra.
    + intros H3. apply Z.leb_le in E3. lia.
  - split; [eapply Qle_trans; [apply py_min_le_r|]; lra|].
    intros _. eapply Qle_trans; [apply py_min_le_r|]. lra.
Qed.

Lemma X9_short_answer_cap_witness :
  let a := repeat 97%N 10 in
  let nodes := [node_with_score (ScoreVal 1.0); node_with_score (ScoreVal 1.0);
                node_with_score (ScoreVal 1.0)] in
  (len a < 50 /\
   calculate_confidence_score {| response := Some a; source_nodes := nodes |}
     = Ok (100 * 0.8 * 1.1)%Q) /\
  ((100 * 0.8 * 1.1)%Q <= 88)%Q.
Proof.
  intros a nodes.
  assert (Ha : len a < 50) by (vm_compute; reflexivity).
  assert (Hc : calculate_confidence_score
                 {| response := Some a; source_nodes := nodes |}
               = Ok (100 * 0.8 * 1.1)%Q) by (vm_compute; reflexivity).
  split; [split; assumption|].
  exact (proj1 (X9_short_answer_cap a nodes _ Ha Hc)).
Defined.

(** X10: over the same source nodes an answer shorter than 50 characters
    never gets a higher confidence than an answer of 50 characters or
    more. *)
Theorem X10_penalty_never_raises (a1 a2 : pystr) (nodes : list Node) (c1 c2 : Q) :
  len a1 < 50 -> 50 <= len a2 ->
  calculate_confidence_score {| response := Some a1; source_nodes := nodes |}
    = Ok c1 ->
  calculate_confidence_score {| response := Some a2; source_nodes := nodes |}
    = Ok c2 ->
  (c1 <= c2)%Q.
Proof.
  intros H1 H2. unfold calculate_confidence_score. cbn [source_nodes response].
  destruct nodes as [|n nodes]; [intros [= <-] [= <-]; lra|].
  destruct (truthy_scores (n :: nodes)) as [|s0 scores];
    [intros [= <-] [= <-]; lra|].
  cbn [len_opt rbind]. apply Z.ltb_lt in H1. apply Z.ltb_ge in H2.
  rewrite H1, H2.
  set (mean := (py_sum (s0 :: scores) / inject_Z (len (s0 :: scores)))%Q).
  pose proof (clamp_bounds (mean * 100)) as [Hlo Hhi].
  set (b := py_min 100 (py_max 0 (mean * 100))) in *.
  intros [= <-] [= <-].
  destruct (3 <=? len (n :: nodes)); apply py_min_mono_r; lra.
Qed.

Lemma X10_penalty_never_raises_witness :
  let a1 := repeat 97%N 10 in
  let nodes := [node_with_score (ScoreVal 0.5)] in
  (len a1 < 50 /\ 50 <= len sixty_chars /\
   calculate_confidence_score {| response := Some a1; source_nodes := nodes |}
     = Ok 40.00%Q /\
   calculate_confidence_score
     {| response := Some sixty_chars; source_nodes := nodes |} = Ok 50.0%Q) /\
  (40.00 <= 50.0)%Q.
Proof.
  intros a1 nodes.
  assert (H1 : len a1 < 50) by (vm_compute; reflexivity).
  assert (H2 : 50 <= len sixty_chars) by (vm_compute; discriminate).
  assert (Hc1 : calculate_confidence_score
                  {| response := Some a1; source_nodes := nodes |} = Ok 40.00%Q)
    by (vm_compute; reflexivity).
  assert (Hc2 : calculate_confidence_score
                  {| response := Some sixty_chars; source_nodes := nodes |}
                = Ok 50.0%Q) by (vm_compute; reflexivity).
  split; [repeat split; assumption|].
  exact (X10_penalty_never_raises a1 sixty_chars nodes _ _ H1 H2 Hc1 Hc2).
Defined.

(** ** More on the history *)

(** X11: for a positive limit [get_query_history] returns the last
    [min(limit, len(history))] entries of the history, oldest first. *)
Theorem X11_recent_entries (limit : Z) (st : State) :
  0 < limit ->
  get_query_history limit st =
    drop (length (query_history st)
          - Z.to_nat (Z.min limit (len (query_history st))))%nat
         (query_history st) /\
  len (get_query_history limit st) = Z.min limit (len (query_history st)).
Proof.
  intros Hl.
  assert (H : get_query_history limit st =
    drop (length (query_history st)
          - Z.to_nat (Z.min limit (len (query_history st))))%nat
         (query_history st)).
  { unfold get_query_history.
    destruct (query_history st) as [|q h] eqn:Eh; [reflexivity|].
    unfold slice_from, slice_bound, len.
    destruct (- limit <? 0) eqn:E; [|lia]. f_equal. lia. }
  split; [exact H|]. rewrite H. unfold len. rewrite length_drop. lia.
Qed.

Lemma X11_recent_entries_witness :
  let st := {| query_history := [Failure (lit "a"); Failure (lit "b");
                                 Failure (lit "c")];
               calls := [] |} in
  0 < 2 /\
  get_query_history 2 st = [Failure (lit "b"); Failure (lit "c")] /\
  len (get_query_history 2 st) = 2.
Proof.
  intros st. split; [lia|].
  destruct (X11_recent_entries 2 st ltac:(lia)) as [H1 H2].
  split; [exact H1 | exact H2].
Defined.

(** X12: for a limit of zero or below [get_query_history] returns the
    history without its first [-limit] entries: all of it for 0, and
    nothing once [-limit] reaches the length of the history. *)
Theorem X12_nonpositive_limit (limit : Z) (st : State) :
  limit <= 0 ->
  get_query_history limit st = drop (Z.to_nat (- limit)) (query_history st).
Proof.
  intros Hl. unfold get_query_history.
  destruct (query_history st) as [|q h] eqn:Eh; [now rewrite drop_nil|].
  unfold slice_from, slice_bound, len.
  destruct (- limit <? 0) eqn:E; [lia|].
  destruct (Z.le_gt_cases (- limit) (Z.of_nat (length (q :: h)))) as [Hle|Hgt].
  - f_equal. lia.
  - rewrite !drop_ge by lia. reflexivity.
Qed.

Lemma X12_nonpositive_limit_witness :
  let st := {| query_history := [Failure (lit "a"); Failure (lit "b");
                                 Failure (lit "c")];
               calls := [] |} in
  -1 <= 0 /\
  get_query_history (-1) st = [Failure (lit "b"); Failure (lit "c")].
Proof.
  intros st. split; [lia|].
  exact (X12_nonpositive_limit (-1) st ltac:(lia)).
Defined.

(** ** More on the statistics *)

Lemma count_languages_lookup (languages : list pystr) (m : gmap pystr Z) (l : pystr) :
  fold_left (fun lang_dist lang =>
               <[lang := default 0 (lang_dist !! lang) + 1]> lang_dist)
            languages m !! l
  = match m !! l with
    | Some n => Some (n + occurrences l languages)
    | None => if occurrences l languages =? 0 then None
              else Some (occurrences l languages)
    end.
Proof.
  revert m. induction languages as [|l' languages IH]; intros m.
  - cbn. destruct (m !! l); [f_equal; unfold occurrences, len; cbn; lia|reflexivity].
  - cbn [fold_left]. rewrite IH. unfold occurrences in *. cbn [List.filter].
    destruct (decide (l' = l)) as [->|Hne].
    + rewrite lookup_insert_eq, bool_decide_eq_true_2 by reflexivity.
      unfold len. cbn [length].
      destruct (m !! l) as [n|]; cbn [default]; unfold id.
      * apply (f_equal Some). lia.
      * destruct (Z.of_nat (S _) =? 0) eqn:E; [apply Z.eqb_eq in E; lia|].
        apply (f_equal Some). lia.
    + rewrite lookup_insert_ne by exact Hne.
      rewrite bool_decide_eq_false_2 by exact Hne. reflexivity.
Qed.

(** X13: the language distribution of the statistics maps a language code
    to the number of successful history entries recorded with that
    language, and has no entry for a language that none of them has. *)
Theorem X13_language_distribution_counts (st : State) (l : pystr) :
  language_distribution (get_statistics st) !! l =
  let n := occurrences l (map get_language (successful_entries st)) in
  if n =? 0 then None else Some n.
Proof.
  unfold get_statistics, successful_entries.
  destruct (query_history st) as [|q h] eqn:Eh.
  - cbn. apply lookup_empty.
  - cbn [language_distribution]. unfold count_languages.
    rewrite count_languages_lookup, lookup_empty. reflexivity.
Qed.

(** In reachable states every stored confidence is between 0 and 100. *)
Lemma reachable_confidence_range st :
  reachable st ->
  Forall (fun q => (0 <= get_confidence q)%Q /\ (get_confidence q <= 100)%Q)
         (query_history st).
Proof.
  unfold reachable. intros Hr. pattern st. revert st Hr. apply rtc_ind_r.
  - constructor.
  - intros y z _ Hstep IH. destruct Hstep as [env query k t f st0 | st0].
    + destruct (process_query_history env query k t f st0)
        as [[-> _] | (s & Hs & _ & ->)]; [exact IH|].
      apply Forall_app. split; [exact IH|]. constructor; [|constructor].
      cbn [get_confidence].
      apply process_query_success_inv in Hs
        as [H | (eng & r0 & kept & c & _ & _ & _ & _ & Hc & H)];
        injection H as ->; cbn [confidence].
      * split; lra.
      * exact (calculate_confidence_score_range _ _ Hc).
    + constructor.
Qed.

(** X14: in every reachable state the statistics count as recent queries
    the last 24 entries of the history, or all of them when there are
    fewer: [recent_queries] is [min(24, total_queries)]. *)
Theorem X14_recent_queries_reachable (st : State) :
  reachable st ->
  recent_queries (get_statistics st) = Z.min 24 (total_queries (get_statistics st)).
Proof.
  intros Hr. pose proof (reachable_all_success st Hr) as Hall.
  unfold get_statistics.
  destruct (query_history st) as [|q h] eqn:Eh; [reflexivity|].
  cbn [recent_queries total_queries].
  assert (Hsl : all_success (slice_from (-24) (q :: h))).
  { unfold slice_from. apply Forall_drop. exact Hall. }
  rewrite (filter_all_success _ Hsl).
  unfold slice_from, slice_bound, len. change (-24 <? 0) with true. cbv iota.
  rewrite length_drop. lia.
Qed.

Lemma X14_recent_queries_reachable_witness :
  reachable state_after_one_answer /\
  recent_queries (get_statistics state_after_one_answer) = 1.
Proof.
  assert (Hr : reachable state_after_one_answer).
  { apply rtc_once. apply step_process_query. }
  split; [exact Hr|].
  etransitivity; [exact (X14_recent_queries_reachable _ Hr)|].
  vm_compute. reflexivity.
Defined.

Section Rounding.

Local Open Scope Q_scope.

Lemma round_half_even_between (a b : Z) (y : Q) :
  inject_Z a <= y -> y <= inject_Z b ->
  (a <= round_half_even y <= b)%Z.
Proof.
  intros Ha Hb.
  assert (Hfa : (a <= Qfloor y)%Z).
  { rewrite <- (Qfloor_Z a). now apply Qfloor_resp_le. }
  assert (Hfb : (Qfloor y <= b)%Z).
  { rewrite <- (Qfloor_Z b). now apply Qfloor_resp_le. }
  pose proof (Qfloor_le y) as Hlo.
  assert (Hstrict : 0 < y - inject_Z (Qfloor y) -> (Qfloor y + 1 <= b)%Z).
  { intros Hr. assert (Hlt : inject_Z (Qfloor y) < inject_Z b) by lra.
    rewrite <- Zlt_Qlt in Hlt. lia. }
  unfold round_half_even.
  destruct (y - inject_Z (Qfloor y) ?= 1 # 2) eqn:E.
  - apply Qeq_alt in E. assert (Hr : 0 < y - inject_Z (Qfloor y)) by lra.
    specialize (Hstrict Hr). destruct (Z.even (Qfloor y)); lia.
  - lia.
  - apply Qgt_alt in E. assert (Hr : 0 < y - inject_Z (Qfloor y)) by lra.
    specialize (Hstrict Hr). lia.
Qed.

Lemma py_round2_range (x : Q) : 0 <= x -> x <= 100 -> 0 <= py_round2 x <= 100.
Proof.
  intros H0 H100. unfold py_round2.
  destruct (round_half_even_between 0 10000 (x * 100)) as [Hlo Hhi];
    [change (inject_Z 0) with 0; lra
    |change (inject_Z 10000) with 10000; lra |].
  rewrite Zle_Qle in Hlo, Hhi.
  change (inject_Z 0) with 0 in Hlo. change (inject_Z 10000) with 10000 in Hhi.
  split.
  - apply Qle_shift_div_l; lra.
  - apply Qle_shift_div_r; lra.
Qed.

Lemma fold_left_Qplus_bounds (lo hi : Q) (xs : list Q) (a : Q) :
  Forall (fun x => lo <= x /\ x <= hi) xs ->
  a + lo * inject_Z (len xs) <= fold_left Qplus xs a /\
  fold_left Qplus xs a <= a + hi * inject_Z (len xs).
Proof.
  intros H. revert a. induction H as [|x xs [Hx1 Hx2] _ IH]; intros a.
  - unfold len. cbn [length fold_left].
    change (inject_Z (Z.of_nat 0)) with 0. split; lra.
  - cbn [fold_left]. destruct (IH (a + x)) as [IH1 IH2].
    assert (Hl : inject_Z (len (x :: xs)) == inject_Z (len xs) + 1).
    { unfold len. cbn [length].
      rewrite Nat2Z.inj_succ, <- Z.add_1_r, inject_Z_plus. reflexivity. }
    rewrite Hl. split; lra.
Qed.

Lemma mean_bounds (xs : list Q) :
  xs <> [] ->
  Forall (fun x => 0 <= x /\ x <= 100) xs ->
  0 <= py_sum xs / inject_Z (len xs) /\ py_sum xs / inject_Z (len xs) <= 100.
Proof.
  intros Hne H. destruct (fold_left_Qplus_bounds 0 100 xs 0 H) as [Hlo Hhi].
  fold (py_sum xs) in Hlo, Hhi.
  assert (Hn : 0 < inject_Z (len xs)).
  { change 0 with (inject_Z 0). rewrite <- Zlt_Qlt. unfold len.
    destruct xs; [contradiction | cbn; lia]. }
  split.
  - apply Qle_shift_div_l; [exact Hn | lra].
  - apply Qle_shift_div_r; [exact Hn | lra].
Qed.

End Rounding.

(** X15: in every reachable state the average confidence reported by the
    statistics lies between 0 and 100. *)
Theorem X15_average_confidence_in_range (st : State) :
  reachable st ->
  (0 <= avg_confidence (get_statistics st))%Q /\
  (avg_confidence (get_statistics st) <= 100)%Q.
Proof.
  intros Hr. pose proof (reachable_confidence_range st Hr) as Hc.
  unfold get_statistics.
  destruct (query_history st) as [|q h] eqn:Eh; [cbn; split; lra|].
  cbn [avg_confidence].
  assert (Hm : Forall (fun x => (0 <= x)%Q /\ (x <= 100)%Q)
                 (map get_confidence (List.filter get_success (q :: h)))).
  { apply Forall_map. apply Forall_forall. intros x Hx.
    apply list_elem_of_In, filter_In in Hx as [Hx _].
    rewrite Forall_forall in Hc. apply Hc. now apply list_elem_of_In. }
  destruct (map get_confidence (List.filter get_success (q :: h)))
    as [|c cs] eqn:Em; [apply py_round2_range; lra|].
  assert (Hne : map get_confidence (List.filter get_success (q :: h)) <> [])
    by (rewrite Em; discriminate).
  rewrite <- Em in Hm |- *.
  destruct (mean_bounds _ Hne Hm) as [H0 H100].
  apply py_round2_range; assumption.
Qed.

Lemma X15_average_confidence_in_range_witness :
  reachable state_after_one_answer /\
  (0 <= avg_confidence (get_statistics state_after_one_answer))%Q /\
  (avg_confidence (get_statistics state_after_one_answer) <= 100)%Q.
Proof.
  assert (Hr : reachable state_after_one_answer).
  { apply rtc_once. apply step_process_query. }
  split; [exact Hr|].
  exact (X15_average_confidence_in_range _ Hr).
Defined.

(** * Properties of the document processor *)

(** ** validate_files *)

Lemma size_check (m s : Z) :
  Qlt_bool (inject_Z m) (inject_Z s / inject_Z (1024 * 1024))%Q = false
  <-> s <= m * 1048576.
Proof.
  unfold Qlt_bool. rewrite negb_false_iff.
  change (1024 * 1024) with 1048576.
  unfold Qle_bool, Qdiv, Qmult, Qinv, inject_Z. cbn.
  rewrite Z.leb_le. lia.
Qed.


Lemma check_file_sizes_spec dp files :
  ((check_file_sizes dp files).1 = true <->
   Forall (fun f => nearest_double (file_size f) <= max_file_size_bytes dp) files) /\
  length (check_file_sizes dp files).2
    = (if (check_file_sizes dp files).1 then 0 else 1)%nat.
Proof.
  induction files as [|f files [IH1 IH2]].
  - cbn. split; [split; [constructor | reflexivity] | reflexivity].
  - cbn [check_file_sizes]. unfold true_div_mib.
    destruct (Qlt_bool _ _) eqn:E.
    + cbn. split; [|reflexivity]. split; [discriminate|].
      intros H. apply Forall_cons in H as [H _].
      apply size_check in H. congruence.
    + apply size_check in E. split; [|exact IH2].
      rewrite IH1. split.
      * intros H. now constructor.
      * intros H. now apply Forall_cons in H as [_ H].
Qed.

Lemma validate_files_spec dp files :
  ((validate_files dp files).1 = true <->
   len files <= max_files_count dp /\
   Forall (fun f => nearest_double (file_size f) <= max_file_size_bytes dp) files) /\
  length (validate_files dp files).2
    = (if (validate_files dp files).1 then 0 else 1)%nat.
Proof.
  unfold validate_files.
  destruct (max_files_count dp <? len files) eqn:E;
    [apply Z.ltb_lt in E | apply Z.ltb_ge in E].
  - cbn. split; [|reflexivity]. split; [discriminate | lia].
  - destruct (check_file_sizes_spec dp files) as [H1 H2].
    split; [|exact H2]. rewrite H1. tauto.
Qed.





(** Above 2^53 bytes the division rounds: a file of 2^53 + 1 bytes passes
    a limit of 2^33 MB, which is 2^53 bytes. *)
Example rounded_size_passes :
  nearest_double (2 ^ 53 + 1) = 2 ^ 53 /\
  nearest_double (2 ^ 53 + 3) = 2 ^ 53 + 4 /\
  (validate_files {| max_file_size_mb := 2 ^ 33; max_files_count := 100 |}
     [{| file_name := lit "big.pdf"; file_size := 2 ^ 53 + 1;
         file_read := Ok [] |}]).1 = true.
Proof. repeat split; vm_compute; reflexivity. Qed.

(** ** extract_text_from_pdf *)

Lemma append_pages_ends (pages : list (result pystr)) (acc text : pystr) :
  pages <> [] ->
  append_pages acc pages = Ok text ->
  exists body, text = body ++ page_separator.
Proof.
  revert acc. induction pages as [|p pages IH]; intros acc Hne H; [contradiction|].
  cbn [append_pages] in H. destruct p as [page_text|e]; [|discriminate].
  cbn [rbind] in H. destruct pages as [|p' pages'].
  - cbn in H. injection H as <-. exists (acc ++ page_text).
    now rewrite <- app_assoc.
  - eapply IH; [discriminate | exact H].
Qed.

Lemma lstrip_keeps_end (body : pystr) :
  exists body', lstrip (body ++ page_separator) = body' ++ page_separator.
Proof.
  induction body as [|c body IH].
  - exists []. reflexivity.
  - cbn [app lstrip]. destruct (py_isspace c); [exact IH|].
    exists (c :: body). reflexivity.
Qed.

Lemma rstrip_keeps_end (body : pystr) :
  rstrip (body ++ page_separator) = body ++ page_separator.
Proof.
  unfold rstrip, page_separator. rewrite rev_app_distr. cbn [rev app lstrip].
  change (py_isspace 110) with false. cbv iota.
  change (110%N :: 92%N :: rev body) with (rev [92%N; 110%N] ++ rev body).
  now rewrite <- rev_app_distr, rev_involutive.
Qed.

Lemma strip_keeps_end (body : pystr) :
  exists body', strip (body ++ page_separator) = body' ++ page_separator.
Proof.
  unfold strip. destruct (lstrip_keeps_end body) as [body' ->].
  exists body'. apply rstrip_keeps_end.
Qed.

Lemma extracted_text_ends env content reader pages text :
  read_pdf env content = Ok reader ->
  reader_pages reader = Ok pages ->
  pages <> [] ->
  extract_text_from_pdf env content = Ok text ->
  (exists body, text = body ++ [92%N; 110%N]) /\ strip text <> [].
Proof.
  intros Hr Hp Hne. unfold extract_text_from_pdf. rewrite Hr. cbn [rbind].
  rewrite Hp. cbn [rbind].
  destruct (append_pages [] pages) as [raw|e] eqn:Ea; [|discriminate].
  cbn [rbind]. intros [= <-].
  destruct (append_pages_ends _ _ _ Hne Ea) as [body ->].
  destruct (strip_keeps_end body) as [body' Hs]. rewrite Hs.
  split; [now exists body'|].
  destruct (strip_keeps_end body') as [body'' ->].
  destruct body''; discriminate.
Qed.

(** X19: for a PDF with at least one page, the text that
    [extract_text_from_pdf] returns ends with the two characters backslash
    and n that the loop appends after every page ([strip] does not remove
    them), so it is never empty, not even when no page has any text. *)
Theorem X19_extracted_text_ends_with_separator env content reader pages text :
  read_pdf env content = Ok reader ->
  reader_pages reader = Ok pages ->
  pages <> [] ->
  extract_text_from_pdf env content = Ok text ->
  (exists body, text = body ++ [92%N; 110%N]) /\ strip text <> [].
Proof. apply extracted_text_ends. Qed.

Lemma X19_extracted_text_ends_with_separator_witness :
  let env := env_with_pages [Ok []; Ok (lit "  ")] in
  let reader := {| reader_metadata := Ok None;
                   reader_pages := Ok [Ok []; Ok (lit "  ")] |} in
  (read_pdf env [] = Ok reader /\
   reader_pages reader = Ok [Ok []; Ok (lit "  ")] /\
   [Ok ([] : pystr); Ok (lit "  ")] <> [] /\
   extract_text_from_pdf env [] = Ok (lit "\n  \n")) /\
  (exists body, lit "\n  \n" = body ++ [92%N; 110%N]) /\
  strip (lit "\n  \n") <> [].
Proof.
  intros env reader.
  assert (H1 : read_pdf env [] = Ok reader) by reflexivity.
  assert (H2 : reader_pages reader = Ok [Ok []; Ok (lit "  ")]) by reflexivity.
  assert (H3 : [Ok ([] : pystr); Ok (lit "  ")] <> []) by discriminate.
  assert (H4 : extract_text_from_pdf env [] = Ok (lit "\n  \n"))
    by (vm_compute; reflexivity).
  split; [repeat split; assumption|].
  exact (X19_extracted_text_ends_with_separator env [] reader _ _ H1 H2 H3 H4).
Defined.

(** ** process_uploaded_files *)

(** The documents of a run of the loop do not depend on the position of
    the files nor on their number. *)
Lemma process_files_from_documents env n i files :
  (process_files_from env n i files).1
    = omap (fun f => (process_file env 0 0 f).1) files.
Proof.
  revert i. induction files as [|f files IH]; intros i; [reflexivity|].
  cbn [process_files_from omap list_omap]. specialize (IH (i + 1)).
  destruct (process_files_from env n (i + 1) files) as [docs shown'].
  cbn [fst] in IH. rewrite <- IH.
  unfold process_file.
  destruct (let? pdf_content := file_read f in
            let? text := extract_text_from_pdf env pdf_content in
            Ok (pdf_content, text))%res as [[content text]|e]; [|reflexivity].
  destruct (strip text); reflexivity.
Qed.

Lemma process_uploaded_files_valid dp env files :
  (validate_files dp files).1 = true ->
  (process_uploaded_files dp env files).1
    = omap (fun f => (process_file env 0 0 f).1) files.
Proof.
  intros Hv. unfold process_uploaded_files.
  destruct (validate_files dp files) as [valid shown]. cbn [fst] in Hv.
  subst valid.
  pose proof (process_files_from_documents env (len files) 0 files) as H.
  destruct (process_files_from env (len files) 0 files) as [docs shown'].
  exact H.
Qed.

(** X20: within an accepted upload the files are processed independently:
    the documents of a batch made of two parts are the documents of the
    first part followed by those of the second, so a file that fails or
    has no text takes nothing away from the others. *)
Theorem X20_files_processed_independently dp env files1 files2 :
  (validate_files dp (files1 ++ files2)).1 = true ->
  (process_uploaded_files dp env (files1 ++ files2)).1
    = (process_uploaded_files dp env files1).1
      ++ (process_uploaded_files dp env files2).1.
Proof.
  intros Hv. pose proof (proj1 (proj1 (validate_files_spec _ _)) Hv) as [Hn Hall].
  apply Forall_app in Hall as [Hall1 Hall2].
  unfold len in Hn. rewrite length_app in Hn.
  rewrite !process_uploaded_files_valid; try exact Hv.
  - apply omap_app.
  - apply (proj1 (validate_files_spec _ _)). split; [unfold len; lia | exact Hall2].
  - apply (proj1 (validate_files_spec _ _)). split; [unfold len; lia | exact Hall1].
Qed.

Lemma X20_files_processed_independently_witness :
  let env := env_with_pages [Ok (lit "text")] in
  let broken := {| file_name := lit "broken.pdf"; file_size := 10;
                   file_read := Raise (CollaboratorError (lit "closed file")) |} in
  (validate_files default_processor ([broken] ++ [small_file "a.pdf"])).1 = true /\
  (process_uploaded_files default_processor env
     ([broken] ++ [small_file "a.pdf"])).1
    = (process_uploaded_files default_processor env [broken]).1
      ++ (process_uploaded_files default_processor env [small_file "a.pdf"]).1.
Proof.
  intros env broken.
  assert (Hv : (validate_files default_processor
                  ([broken] ++ [small_file "a.pdf"])).1 = true)
    by (vm_compute; reflexivity).
  split; [exact Hv|].
  exact (X20_files_processed_independently default_processor env
           [broken] [small_file "a.pdf"] Hv).
Defined.

Ltac key_ne := vm_compute; discriminate.

Lemma extract_pdf_metadata_keys env content filename :
  extract_pdf_metadata env content filename !! lit "filename"
    = Some (MVStr filename) /\
  is_Some (extract_pdf_metadata env content filename !! lit "title") /\
  is_Some (extract_pdf_metadata env content filename !! lit "author") /\
  is_Some (extract_pdf_metadata env content filename !! lit "creation_date").
Proof.
  assert (Hd : default_metadata filename !! lit "filename" = Some (MVStr filename)
               /\ is_Some (default_metadata filename !! lit "title")
               /\ is_Some (default_metadata filename !! lit "author")
               /\ is_Some (default_metadata filename !! lit "creation_date")).
  { unfold default_metadata. split; [|split; [|split]].
    - rewrite !lookup_insert_ne by key_ne. apply lookup_insert_eq.
    - rewrite lookup_insert_eq. eauto.
    - rewrite lookup_insert_ne by key_ne. rewrite lookup_insert_eq. eauto.
    - rewrite !lookup_insert_ne by key_ne. rewrite lookup_insert_eq. eauto. }
  unfold extract_pdf_metadata.
  destruct (let? pdf_reader := read_pdf env content in reader_metadata pdf_reader)%res
    as [[info|]|e]; try exact Hd.
  destruct (decide (info = ∅)); [exact Hd|].
  unfold update_from_pdf. split; [|split; [|split]].
  - rewrite !lookup_insert_ne by key_ne. apply Hd.
  - rewrite !lookup_insert_ne by key_ne. rewrite lookup_insert_eq. eauto.
  - rewrite lookup_insert_ne by key_ne. rewrite lookup_insert_eq. eauto.
  - rewrite lookup_insert_eq. eauto.
Qed.

(** What a turn of the loop puts into the document it adds. *)
Lemma process_file_document env n i f d :
  (process_file env n i f).1 = Some d ->
  doc_metadata d !! lit "filename" = Some (MVStr (file_name f)) /\
  doc_metadata d !! lit "file_size" = Some (MVInt (file_size f)) /\
  (exists l, doc_metadata d !! lit "language" = Some (MVStr l)) /\
  is_Some (doc_metadata d !! lit "title") /\
  is_Some (doc_metadata d !! lit "author") /\
  doc_text d <> [].
Proof.
  unfold process_file.
  destruct (let? pdf_content := file_read f in
            let? text := extract_text_from_pdf env pdf_content in
            Ok (pdf_content, text))%res as [[content text]|e]; [|discriminate].
  destruct (strip text) as [|c0 stripped] eqn:Es; [discriminate|].
  cbn [fst]. intros [= <-]. cbn [doc_metadata doc_text].
  destruct (extract_pdf_metadata_keys env content (file_name f))
    as (Hf & Ht & Ha & _).
  split; [|split; [|split; [|split; [|split]]]].
  - rewrite !lookup_insert_ne by key_ne. exact Hf.
  - apply lookup_insert_eq.
  - eexists. rewrite lookup_insert_ne by key_ne. apply lookup_insert_eq.
  - rewrite !lookup_insert_ne by key_ne. exact Ht.
  - rewrite !lookup_insert_ne by key_ne. exact Ha.
  - intros ->. discriminate Es.
Qed.

(** X21: every document returned by [process_uploaded_files] has a
    non-empty text and a metadata dict with the keys "title", "author" and
    "language"; and the documents follow the order of the upload, each
    recording under "filename" and "file_size" the name and the size of
    the file it was made from, with at most one document per file. *)
Theorem X21_documents_follow_the_upload dp env files :
  let documents := (process_uploaded_files dp env files).1 in
  Forall (fun d => doc_text d <> [] /\
                   is_Some (doc_metadata d !! lit "title") /\
                   is_Some (doc_metadata d !! lit "author") /\
                   exists l, doc_metadata d !! lit "language" = Some (MVStr l))
         documents /\
  sublist
    (map (fun d => (doc_metadata d !! lit "filename",
                    doc_metadata d !! lit "file_size")) documents)
    (map (fun f => (Some (MVStr (file_name f)), Some (MVInt (file_size f))))
         files).
Proof.
  cbv zeta.
  destruct ((validate_files dp files).1) eqn:Hv.
  - rewrite (process_uploaded_files_valid _ _ _ Hv). clear Hv.
    induction files as [|f files [IH1 IH2]]; [split; constructor|].
    cbn [omap list_omap map].
    destruct ((process_file env 0 0 f).1) as [d|] eqn:Ed.
    + destruct (process_file_document _ _ _ _ _ Ed)
        as (Hf & Hs & Hl & Ht & Ha & Hx).
      split.
      * constructor; [|exact IH1]. split; [|split; [|split]]; assumption.
      * cbn [map]. rewrite Hf, Hs. now constructor.
    + split; [exact IH1 | now constructor].
  - unfold process_uploaded_files.
    destruct (validate_files dp files) as [valid shown]. cbn [fst] in Hv.
    subst valid. cbn. split; [constructor | apply sublist_nil_l].
Qed.

Lemma validation_shows_errors dp files e :
  In e (validate_files dp files).2 -> exists m, e = StError m.
Proof.
  unfold validate_files. destruct (max_files_count dp <? len files).
  - cbn. intros [<-|[]]. eauto.
  - induction files as [|f files IH]; [intros []|].
    cbn [check_file_sizes]. destruct (Qlt_bool _ _); [|exact IH].
    cbn. intros [<-|[]]. eauto.
Qed.

Lemma process_files_from_warning env n i files name :
  In (StWarning (NoTextExtracted name)) (process_files_from env n i files).2 ->
  exists f, In f files /\ file_name f = name /\
            exists content text,
              file_read f = Ok content /\
              extract_text_from_pdf env content = Ok text /\
              strip text = [].
Proof.
  revert i. induction files as [|f files IH]; intros i; [intros []|].
  cbn [process_files_from]. specialize (IH (i + 1)).
  destruct (process_files_from env n (i + 1) files) as [docs shown'].
  destruct (process_file env n i f) as [doc shown] eqn:Ep. cbn [snd] in *.
  intros H. apply in_app_or in H as [H|H].
  - exists f. split; [now left|]. unfold process_file in Ep.
    destruct (file_read f) as [content|e] eqn:Er; cbn [rbind] in Ep.
    + destruct (extract_text_from_pdf env content) as [text|e] eqn:Ex;
        cbn [rbind] in Ep.
      * destruct (strip text) eqn:Es; injection Ep as <- <-.
        -- destruct H as [H|[]]. injection H as ->.
           split; [reflexivity|]. exists content, text. auto.
        -- destruct H as [H|[]]. discriminate.
      * injection Ep as <- <-. destruct H as [H|[]]. discriminate.
    + injection Ep as <- <-. destruct H as [H|[]]. discriminate.
  - destruct (IH H) as (f' & Hin & Hrest). exists f'. split; [now right | exact Hrest].
Qed.

(** X22: because of the separator the check for an empty text after the
    extraction almost never fires: the warning that no text could be
    extracted is shown only for a file whose PDF has no page at all. *)
Theorem X22_no_text_warning_means_no_page dp env files name :
  In (StWarning (NoTextExtracted name)) (process_uploaded_files dp env files).2 ->
  exists f content reader,
    In f files /\ file_name f = name /\
    file_read f = Ok content /\
    read_pdf env content = Ok reader /\
    reader_pages reader = Ok [].
Proof.
  unfold process_uploaded_files.
  pose proof (validation_shows_errors dp files) as Hval.
  destruct (validate_files dp files) as [valid shown]. cbn [snd] in Hval.
  assert (Hw : forall ev, In ev (process_files_from env (len files) 0 files).2 ->
               ev = StWarning (NoTextExtracted name) ->
               exists f content reader,
                 In f files /\ file_name f = name /\ file_read f = Ok content /\
                 read_pdf env content = Ok reader /\ reader_pages reader = Ok []).
  { intros ev Hin ->.
    apply process_files_from_warning in Hin
      as (f & Hf & Hname & content & text & Hread & Hext & Hstrip).
    exists f, content.
    destruct (read_pdf env content) as [reader|e] eqn:Er;
      [|unfold extract_text_from_pdf in Hext; rewrite Er in Hext; discriminate].
    exists reader.
    destruct (reader_pages reader) as [pages|e] eqn:Ep;
      [|unfold extract_text_from_pdf in Hext; rewrite Er in Hext;
        cbn [rbind] in Hext; rewrite Ep in Hext; discriminate].
    destruct pages as [|p pages]; [repeat split; assumption|].
    destruct (extracted_text_ends env content reader (p :: pages) text Er Ep
                ltac:(discriminate) Hext) as [_ Hne].
    contradiction. }
  destruct valid.
  - destruct (process_files_from env (len files) 0 files) as [docs shown'].
    cbn [snd] in *. intros H.
    apply in_app_or in H as [H|H]; [destruct (Hval _ H); discriminate|].
    cbn [app] in H. destruct H as [H|H]; [discriminate|].
    apply in_app_or in H as [H|H]; [exact (Hw _ H eq_refl)|].
    destruct H as [H|[]]. discriminate.
  - cbn [snd]. intros H. destruct (Hval _ H). discriminate.
Qed.

Lemma X22_no_text_warning_means_no_page_witness :
  let env := env_with_pages [] in
  let files := [small_file "empty.pdf"] in
  In (StWarning (NoTextExtracted (lit "empty.pdf")))
     (process_uploaded_files default_processor env files).2 /\
  exists f content reader,
    In f files /\ file_name f = lit "empty.pdf" /\
    file_read f = Ok content /\
    read_pdf env content = Ok reader /\
    reader_pages reader = Ok [].
Proof.
  intros env files.
  assert (H : In (StWarning (NoTextExtracted (lit "empty.pdf")))
                 (process_uploaded_files default_processor env files).2).
  { vm_compute. right. left. reflexivity. }
  split; [exact H|].
  exact (X22_no_text_warning_means_no_page default_processor env files _ H).
Defined.

(** * Properties of the vector store manager and of the pages *)

(** X23: the manager hands llama-index no filter object for a missing or
    empty [filters] dict; for any other dict it hands over one filter per
    item of the dict, each an equality test of that key against that
    value, all joined by AND. *)
Theorem X23_filters_are_equalities (filters : option (gmap pystr pystr)) :
  match VectorStore.metadata_filters_of filters with
  | None => filters = None \/ filters = Some ∅
  | Some mfs =>
      exists d, filters = Some d /\ d <> ∅ /\
        VectorStore.condition mfs = VectorStore.AND /\
        length (VectorStore.filters mfs) = size d /\
        forall k v op,
          In (VectorStore.mkMetadataFilter k v op) (VectorStore.filters mfs)
          <-> d !! k = Some v /\ op = VectorStore.EQ
  end.
Proof.
  unfold VectorStore.metadata_filters_of.
  destruct filters as [d|]; [|now left].
  destruct (decide (d = ∅)) as [->|Hne]; [now right|].
  exists d. split; [reflexivity|]. split; [exact Hne|]. cbn.
  split; [reflexivity|]. split.
  - rewrite length_map. apply length_map_to_list.
  - intros k v op. rewrite in_map_iff. split.
    + intros ([k' v'] & Heq & Hin). injection Heq as -> -> <-.
      split; [|reflexivity].
      apply list_elem_of_In in Hin. now apply elem_of_map_to_list in Hin.
    + intros [Hl ->]. exists (k, v). split; [reflexivity|].
      apply list_elem_of_In. now apply elem_of_map_to_list.
Qed.

(** X24: as long as the manager has no index, every query is answered
    with the failure that asks to upload documents first, whatever the
    query, the filters and the language detector; the engine is never
    asked and the history stays as it is. *)
Theorem X24_no_index_no_answer detect now query k t f st :
  process_query (env_of_manager detect None now) query k t f st =
  (Ok (Failure (lit "Query engine not available. Please upload documents first.")),
   {| query_history := query_history st;
      calls := calls st ++ [CallDetect query; CallGetQueryEngine k f] |}).
Proof. rewrite process_query_paths. reflexivity. Qed.

(** X25: the author field of the sidebar, passed through [process_query]
    to the manager, gives no filter at all when it is left empty and
    otherwise the single filter "author equals the text typed". *)
Theorem X25_author_field_filter (author_filter : pystr) :
  VectorStore.metadata_filters_of (Some (sidebar_metadata_filters author_filter))
  = match author_filter with
    | [] => None
    | _ => Some {| VectorStore.filters :=
                     [{| VectorStore.key := lit "author";
                         VectorStore.value := author_filter;
                         VectorStore.operator := VectorStore.EQ |}];
                   VectorStore.condition := VectorStore.AND |}
    end.
Proof.
  unfold VectorStore.metadata_filters_of, sidebar_metadata_filters.
  destruct author_filter as [|c author]; [reflexivity|].
  rewrite decide_False by apply insert_non_empty.
  rewrite insert_empty, map_to_list_singleton. reflexivity.
Qed.

(** ** The history page *)

Lemma last_five_of_recent (st : State) :
  slice_from (-5) (get_query_history 10 st)
    = drop (length (query_history st) - 5) (query_history st).
Proof.
  rewrite get_query_history_positive by lia.
  unfold slice_from, slice_bound, len. change (-5 <? 0) with true. cbv iota.
  rewrite length_drop, drop_drop. f_equal. lia.
Qed.

(** X26: in every reachable state the history page can render every entry
    it shows (no entry lacks a key it reads), and it shows the five most
    recent entries of the history, or all of them if there are fewer,
    newest first. *)
Theorem X26_history_page_shows_last_five (st : State) :
  reachable st ->
  exists views,
    render_query_history st = Some views /\
    Forall2 (fun q v => render_history_item q = Some v)
      (rev (drop (length (query_history st) - 5) (query_history st))) views.
Proof.
  intros Hr. pose proof (reachable_all_success st Hr) as Hall.
  assert (Hsome : is_Some (mapM render_history_item
            (rev (drop (length (query_history st) - 5) (query_history st))))).
  { apply mapM_is_Some_2. apply List.Forall_rev, Forall_drop.
    eapply Forall_impl; [exact Hall|].
    intros q Hq. destruct q; [cbn; eauto | discriminate]. }
  destruct Hsome as [views Hviews]. exists views. split.
  - unfold render_query_history.
    destruct (get_query_history 10 st) as [|q h] eqn:Eh.
    + pose proof (last_five_of_recent st) as Hl. rewrite Eh in Hl.
      rewrite <- Hl in Hviews. cbn in Hviews. exact Hviews.
    + rewrite <- Eh, last_five_of_recent. exact Hviews.
  - now apply mapM_Some_1.
Qed.

Lemma X26_history_page_shows_last_five_witness :
  reachable state_after_one_answer /\
  exists views,
    render_query_history state_after_one_answer = Some views /\
    Forall2 (fun q v => render_history_item q = Some v)
      (rev (drop (length (query_history state_after_one_answer) - 5)
              (query_history state_after_one_answer))) views.
Proof.
  assert (Hr : reachable state_after_one_answer).
  { apply rtc_once. apply step_process_query. }
  split; [exact Hr|].
  exact (X26_history_page_shows_last_five _ Hr).
Defined.

(** * Properties of the settings *)

(** X27: a numeric environment variable that [int()] or [float()] cannot
    read makes the constructor of [Settings] fail whatever keyword
    arguments it is given, also when they supply that very setting: the
    conversion happens before the keyword arguments are looked at. *)
Theorem X27_malformed_number_beats_kwargs getenv parse_int parse_float
    (kwargs kwargs' : Config.Kwargs) (e : Config.ValueError) :
  Config.new_Settings getenv parse_int parse_float kwargs = inl e ->
  (forall msg, e <> Config.MustBeSet msg) ->
  Config.new_Settings getenv parse_int parse_float kwargs' = inl e.
Proof.
  unfold Config.new_Settings, Config.int_of_env, Config.float_of_env.
  intros H Hne.
  repeat match goal with
    | H : context [parse_int ?t] |- _ =>
        destruct (parse_int t); cbn [Config.ebind] in H |- *;
        [|exact H]
    end.
  destruct (parse_float _); cbn [Config.ebind] in H |- *; [|exact H].
  cbv zeta in H.
  repeat match type of H with
    | (if ?b then _ else _) = _ => destruct b
    end;
    try discriminate H; injection H as <-; exfalso; eapply Hne; reflexivity.
Qed.

(** Every number is unreadable. *)
Lemma X27_malformed_number_beats_kwargs_witness :
  let kwargs' :=
    Config.mkKwargs (Some (lit "sk-test")) None None (Some (lit "pc-test")) None
      None (Some 50) None None None None None None in
  let e := Config.InvalidInt (lit "fifty") in
  let getenv := fun name : pystr =>
    if bool_decide (name = lit "MAX_FILE_SIZE_MB") then Some (lit "fifty")
    else None in
  let parse_int := fun text : pystr =>
    if bool_decide (text = lit "fifty") then None else int_of_defaults text in
  (Config.new_Settings getenv parse_int float_of_defaults Config.no_kwargs = inl e /\
   (forall msg, e <> Config.MustBeSet msg)) /\
  Config.new_Settings getenv parse_int float_of_defaults kwargs' = inl e.
Proof.
  intros kwargs' e getenv parse_int.
  assert (H : Config.new_Settings getenv parse_int float_of_defaults
                Config.no_kwargs = inl e) by (vm_compute; reflexivity).
  assert (Hne : forall msg, e <> Config.MustBeSet msg) by (intros msg; discriminate).
  split; [split; assumption|].
  exact (X27_malformed_number_beats_kwargs getenv parse_int float_of_defaults
           Config.no_kwargs kwargs' e H Hne).
Defined.

(** X28: a [Settings] object that the constructor returns has both API
    keys set, to something other than the empty string and the
    placeholder of the sample file, each key being the keyword argument
    when one is given and the environment variable otherwise. *)
Theorem X28_settings_have_keys getenv parse_int parse_float
    (kwargs : Config.Kwargs) (s : Config.Settings) :
  Config.new_Settings getenv parse_int parse_float kwargs = inr s ->
  (Config.openai_api_key s <> [] /\
   Config.openai_api_key s <> lit "your_openai_api_key_here" /\
   Config.openai_api_key s
     = default (Config.getenv_or getenv "OPENAI_API_KEY" "")
               (Config.kw_openai_api_key kwargs)) /\
  (Config.pinecone_api_key s <> [] /\
   Config.pinecone_api_key s <> lit "your_pinecone_api_key_here" /\
   Config.pinecone_api_key s
     = default (Config.getenv_or getenv "PINECONE_API_KEY" "")
               (Config.kw_pinecone_api_key kwargs)).
Proof.
  unfold Config.new_Settings, Config.int_of_env, Config.float_of_env.
  intros H.
  repeat match goal with
    | H : context [parse_int ?t] |- _ =>
        destruct (parse_int t); cbn [Config.ebind] in H; [|discriminate H]
    end.
  destruct (parse_float _); cbn [Config.ebind] in H; [|discriminate H].
  cbv zeta in H. cbn [Config.openai_api_key Config.pinecone_api_key] in H.
  destruct (Config.key_missing _ "your_openai_api_key_here") eqn:E1;
    [discriminate H|].
  destruct (Config.key_missing _ "your_pinecone_api_key_here") eqn:E2;
    [discriminate H|].
  injection H as <-. cbn [Config.openai_api_key Config.pinecone_api_key].
  unfold Config.key_missing in E1, E2.
  split.
  - destruct (default _ (Config.kw_openai_api_key kwargs)) as [|c key];
      [discriminate E1|].
    apply bool_decide_eq_false in E1. repeat split; [discriminate | exact E1].
  - destruct (default _ (Config.kw_pinecone_api_key kwargs)) as [|c key];
      [discriminate E2|].
    apply bool_decide_eq_false in E2. repeat split; [discriminate | exact E2].
Qed.

Lemma X28_settings_have_keys_witness :
  let s := Config.mkSettings (lit "sk-test") (lit "gpt-4")
             (lit "text-embedding-ada-002") (lit "pc-test")
             (lit "us-east1-gcp") (lit "qa-documents")
             50 100 1024 20 5 0.7%Q (lit "sqlite:///qa_system.db") in
  Config.new_Settings env_with_keys int_of_defaults float_of_defaults
    Config.no_kwargs = inr s /\
  (Config.openai_api_key s <> [] /\
   Config.openai_api_key s <> lit "your_openai_api_key_here" /\
   Config.openai_api_key s
     = default (Config.getenv_or env_with_keys "OPENAI_API_KEY" "")
               (Config.kw_openai_api_key Config.no_kwargs)) /\
  (Config.pinecone_api_key s <> [] /\
   Config.pinecone_api_key s <> lit "your_pinecone_api_key_here" /\
   Config.pinecone_api_key s
     = default (Config.getenv_or env_with_keys "PINECONE_API_KEY" "")
               (Config.kw_pinecone_api_key Config.no_kwargs)).
Proof.
  intros s.
  assert (H : Config.new_Settings env_with_keys int_of_defaults float_of_defaults
                Config.no_kwargs = inr s) by (vm_compute; reflexivity).
  split; [exact H|].
  exact (X28_settings_have_keys env_with_keys int_of_defaults float_of_defaults
           Config.no_kwargs s H).
Defined.
